(** * mmqtt: packet assembly and publishing (tx_message_handler.py)

    A shallow embedding of [generate_mesh_packet], [create_payload],
    [publish_message], [send_text_message] and [get_portnum_name] of
    [mmqtt/tx_message_handler.py], and of the override construction and
    the dispatch loop of [handle_args] in [mmqtt/argument_parser.py].

    Python values are modelled as follows.
    - [str] and [bytes] are [string]; a character is a code point below 256.
    - [int] is [Z].
    - A value that may be [None] is an [option].
    - Module-level mutable objects (the configuration namespace, the
      [client] module attributes, the global [message_id]) live in an
      explicit [State] that every operation threads; a raised exception
      leaves the mutations made before it in place, as in Python. *)

From Stdlib Require Import ZArith List String Ascii Bool Lia DecimalString.
Import ListNotations.
Local Open Scope string_scope.
Local Open Scope Z_scope.

(** ** Python string builtins used by the module *)

Module PyStr.

(** [s.startswith(p)]. *)
Fixpoint startswith (p s : string) : bool :=
  match p, s with
  | EmptyString, _ => true
  | String a p', String b s' => Ascii.eqb a b && startswith p' s'
  | String _ _, EmptyString => false
  end.

(** [s.replace(c, "")] for a one-character [c]: every occurrence goes. *)
Fixpoint remove_char (c : ascii) (s : string) : string :=
  match s with
  | EmptyString => EmptyString
  | String a s' =>
      if Ascii.eqb a c then remove_char c s' else String a (remove_char c s')
  end.

(** [str.lower] on one code point: A-Z, and the Latin-1 capitals
    U+00C0..U+00DE except the multiplication sign U+00D7. *)
Definition lower_char (a : ascii) : ascii :=
  let n := N_of_ascii a in
  if ((65 <=? n) && (n <=? 90))%N then ascii_of_N (n + 32)
  else if ((192 <=? n) && (n <=? 222) && negb (n =? 215))%N
       then ascii_of_N (n + 32)
  else a.

Fixpoint lower (s : string) : string :=
  match s with
  | EmptyString => EmptyString
  | String a s' => String (lower_char a) (lower s')
  end.

(** *** [int(s, 16)]

    CPython's [PyLong_FromString] with base 16: surrounding white space is
    skipped, one sign is allowed, then an optional [0x]/[0X] prefix (which
    may be followed by one underscore), then hexadecimal digits in which
    single underscores may separate digits.  Anything else is a
    [ValueError], here [None]. *)

Definition is_space (a : ascii) : bool :=
  let n := N_of_ascii a in
  ((9 <=? n) && (n <=? 13) || (n =? 32) || (n =? 133) || (n =? 160))%N.

Definition hex_digit (a : ascii) : option Z :=
  let n := Z.of_N (N_of_ascii a) in
  if (48 <=? n) && (n <=? 57) then Some (n - 48)
  else if (97 <=? n) && (n <=? 102) then Some (n - 87)
  else if (65 <=? n) && (n <=? 70) then Some (n - 55)
  else None.

Fixpoint skip_spaces (s : string) : string :=
  match s with
  | String a s' => if is_space a then skip_spaces s' else s
  | EmptyString => EmptyString
  end.

Fixpoint all_spaces (s : string) : bool :=
  match s with
  | EmptyString => true
  | String a s' => is_space a && all_spaces s'
  end.

(** The digit loop of [long_from_string_base]: [prev_us] tells whether the
    previous character was an underscore, [acc] is the value so far.  It
    stops at the first character that is neither a digit nor an
    underscore and returns the value with the unread rest. *)
Fixpoint scan_digits (prev_us : bool) (acc : Z) (s : string)
  : option (Z * string) :=
  match s with
  | EmptyString => if prev_us then None else Some (acc, EmptyString)
  | String a s' =>
      if Ascii.eqb a "_" then
        if prev_us then None else scan_digits true acc s'
      else
        match hex_digit a with
        | Some d => scan_digits false (16 * acc + d) s'
        | None => if prev_us then None else Some (acc, s)
        end
  end.

Definition strip_sign (s : string) : bool * string :=
  match s with
  | String "+" s' => (false, s')
  | String "-" s' => (true, s')
  | _ => (false, s)
  end.

Definition strip_0x (s : string) : string :=
  match s with
  | String "0" (String c s') =>
      if Ascii.eqb c "x" || Ascii.eqb c "X" then
        match s' with
        | String "_" s'' => s''
        | _ => s'
        end
      else s
  | _ => s
  end.

Definition starts_with_digit (s : string) : bool :=
  match s with
  | String a _ => match hex_digit a with Some _ => true | None => false end
  | EmptyString => false
  end.

Definition int16 (s : string) : option Z :=
  let (neg, s1) := strip_sign (skip_spaces s) in
  let s2 := strip_0x s1 in
  if starts_with_digit s2 then
    match scan_digits false 0 s2 with
    | Some (v, rest) =>
        if all_spaces rest then Some (if neg then - v else v) else None
    | None => None
    end
  else None.

(** [str(n)] for an [int]. *)
Definition str_of_int (n : Z) : string := NilZero.string_of_int (Z.to_int n).

End PyStr.

(** ** Data model *)

Definition bytes := string.

(** The exceptions the module can see.  All are instances of Python's
    [Exception]; each constructor names the class and the site that raises
    it.  [Collaborator] stands for whatever a collaborator outside this
    module (channel hash, encryption, transport, a payload function)
    raises. *)
Inductive exn : Type :=
| ValueError_sigil                    (* line 90 / 102 *)
| ValueError_reserved (from_id : Z)   (* line 112 *)
| ValueError_literal (s : string)     (* int(s, 16) on a malformed s *)
| ValueError_range (v : Z)            (* protobuf: value out of range *)
| TypeError_subscript                 (* False['node_id'] *)
| Collaborator (class_name message : string).

(** [str(e)] for the two errors whose text the module writes itself. *)
Definition message_of (e : exn) : option string :=
  match e with
  | ValueError_sigil => Some "Node ID must start with '!'"
  | ValueError_reserved v =>
      Some ("Node ID '" ++ PyStr.str_of_int v
            ++ "' is reserved and cannot be used. Please choose a different ID.")
  | Collaborator _ m => Some m
  | _ => None
  end.

Inductive result (A : Type) : Type :=
| Ok (a : A)
| Raise (e : exn).
Arguments Ok {A} a.
Arguments Raise {A} e.

(** [mesh_pb2.Data] *)
Record Data := {
  portnum : Z;
  payload : bytes;
  want_response : bool;
  bitfield : Z
}.

(** [mesh_pb2.MeshPacket].  [decoded] and [encrypted] are the two members
    of the protobuf oneof [payload_variant]. *)
Record MeshPacket := {
  mp_id : Z;
  mp_from : Z;
  mp_to : Z;
  mp_want_ack : bool;
  mp_channel : Z;
  mp_hop_limit : Z;
  mp_hop_start : Z;
  mp_decoded : option Data;
  mp_encrypted : option bytes
}.

(** [mqtt_pb2.ServiceEnvelope] *)
Record ServiceEnvelope := {
  packet : MeshPacket;
  channel_id : string;
  gateway_id : string
}.

(** The [_overrides] dictionary built by [handle_args]. *)
Record Overrides := {
  ov_node_id : option string;
  ov_channel_preset : option string;
  ov_channel_key : option string;
  ov_destination : option Z;
  ov_hop_limit : option Z;
  ov_priority : option string
}.

(** The keyword arguments the module reads.  A key that is absent is
    [None]; [use_config] absent is [false]; [kw_overrides] absent is the
    default [False] of [kwargs.get("_overrides", False)]. *)
Record Kwargs := {
  use_config : bool;
  kw_overrides : option Overrides;
  kw_to : option Z;
  kw_want_ack : option bool;
  kw_want_response : option bool;
  kw_hop_limit : option Z;
  kw_hop_start : option Z
}.

(** The fields of the configuration namespace the module reads:
    [config.nodeinfo.id], [config.channel.preset], [config.channel.key],
    [config.mqtt.root_topic], [config.message.destination_id]. *)
Record Config := {
  nodeinfo_id : string;
  channel_preset : string;
  channel_key : string;
  mqtt_root_topic : string;
  message_destination_id : Z
}.

(** The attributes of the [mmqtt.client] module the module reads. *)
Record Client := {
  client_node_id : string;
  client_channel : string;
  client_key : string;
  client_root_topic : string;
  client_destination_id : Z
}.

(** What the process does that an observer can see. *)
Inductive Event : Type :=
| EvEncrypt (channel key : string) (p : MeshPacket) (d : Data)
| EvTx (portnum : Z) (topic : string) (destination : Z)
| EvPublish (topic : string) (payload : bytes)
| EvError (e : exn).

(** Process-wide state: the cached configuration object [_config], the
    [client] module, the global [message_id], and the trace of events. *)
Record State := {
  st_config : Config;
  st_client : Client;
  st_message_id : Z;
  st_events : list Event
}.

(** ** A state monad in which exceptions keep the state *)

Definition M (A : Type) : Type := State -> result A * State.

Definition ret {A} (a : A) : M A := fun st => (Ok a, st).
Definition raise {A} (e : exn) : M A := fun st => (Raise e, st).
Definition bind {A B} (m : M A) (k : A -> M B) : M B :=
  fun st => match m st with
            | (Ok a, st') => k a st'
            | (Raise e, st') => (Raise e, st')
            end.
Definition lift {A} (r : result A) : M A := fun st => (r, st).
Definition get : M State := fun st => (Ok st, st).
Definition put (st : State) : M unit := fun _ => (Ok tt, st).
Definition emit (ev : Event) : M unit :=
  fun st => (Ok tt, {| st_config := st_config st; st_client := st_client st;
                       st_message_id := st_message_id st;
                       st_events := st_events st ++ [ev] |}).

(** [try: body except Exception as e: handler e] *)
Definition try_except {A} (body : M A) (handler : exn -> M A) : M A :=
  fun st => match body st with
            | (Ok a, st') => (Ok a, st')
            | (Raise e, st') => handler e st'
            end.

Declare Scope py_scope.
Delimit Scope py_scope with py.
Notation "x <- m ;; k" := (bind m (fun x => k))
  (at level 61, m at next level, right associativity) : py_scope.
Notation "m ;;; k" := (bind m (fun _ => k))
  (at level 61, right associativity) : py_scope.
Local Open Scope py_scope.

(** ** Python's [or] and protobuf's checked assignment *)

(** [a or b] where [a] is a string or [None]. *)
Definition or_str (a : option string) (b : string) : string :=
  match a with
  | Some EmptyString | None => b
  | Some s => s
  end.

(** [a or b] where [a] is an int or [None]. *)
Definition or_int (a : option Z) (b : Z) : Z :=
  match a with
  | Some 0 | None => b
  | Some n => n
  end.

(** [kwargs.get(key, default)] *)
Definition kwargs_get {A} (v : option A) (default : A) : A :=
  match v with Some a => a | None => default end.

(** Assigning to a [uint32]/[fixed32] protobuf field: a value outside
    [0, 2^32) raises [ValueError]. *)
Definition u32 (v : Z) : Prop := 0 <= v < 2 ^ 32.
Definition u32b (v : Z) : bool := (0 <=? v) && (v <? 2 ^ 32).
Definition check_u32 (v : Z) : result Z :=
  if u32b v then Ok v else Raise (ValueError_range v).

Definition reserved_ids : list Z := [1; 2; 3; 4; 4294967295].
Definition is_reserved (v : Z) : bool := existsb (Z.eqb v) reserved_ids.

(** Members of the oneof [payload_variant]: setting one clears the other. *)
Definition set_decoded (p : MeshPacket) (d : Data) : MeshPacket :=
  {| mp_id := mp_id p; mp_from := mp_from p; mp_to := mp_to p;
     mp_want_ack := mp_want_ack p; mp_channel := mp_channel p;
     mp_hop_limit := mp_hop_limit p; mp_hop_start := mp_hop_start p;
     mp_decoded := Some d; mp_encrypted := None |}.

Definition set_encrypted (p : MeshPacket) (b : bytes) : MeshPacket :=
  {| mp_id := mp_id p; mp_from := mp_from p; mp_to := mp_to p;
     mp_want_ack := mp_want_ack p; mp_channel := mp_channel p;
     mp_hop_limit := mp_hop_limit p; mp_hop_start := mp_hop_start p;
     mp_decoded := None; mp_encrypted := Some b |}.

Definition set_config (st : State) (c : Config) : State :=
  {| st_config := c; st_client := st_client st;
     st_message_id := st_message_id st; st_events := st_events st |}.

Definition set_client (st : State) (c : Client) : State :=
  {| st_config := st_config st; st_client := c;
     st_message_id := st_message_id st; st_events := st_events st |}.

Definition set_message_id (st : State) (i : Z) : State :=
  {| st_config := st_config st; st_client := st_client st;
     st_message_id := i; st_events := st_events st |}.

(** ** The operations of tx_message_handler.py *)

(** What lines 85-108 of [generate_mesh_packet] compute. *)
Record Resolved := {
  r_node_id : string;
  r_channel_id : string;
  r_channel_key : string;
  r_gateway_id : string;
  r_from_id : Z;
  r_destination : Z
}.

(** Lines 85-108: the [use_config] branch reads the configuration object,
    the other branch the [client] module; [int(x, 16)] raises on a
    malformed literal. *)
Definition resolve (kw : Kwargs) (ov : Overrides) (st : State)
  : result Resolved :=
  if use_config kw then
    let config := st_config st in
    let node_id := or_str (ov_node_id ov) (nodeinfo_id config) in
    if negb (PyStr.startswith "!" node_id) then Raise ValueError_sigil
    else
      match PyStr.int16 (PyStr.remove_char "!" node_id) with
      | None => Raise (ValueError_literal (PyStr.remove_char "!" node_id))
      | Some from_id =>
          Ok {| r_node_id := node_id;
                r_channel_id :=
                  or_str (ov_channel_preset ov) (channel_preset config);
                r_channel_key :=
                  match ov_channel_key ov with
                  | Some k => k
                  | None => channel_key config
                  end;
                r_gateway_id := PyStr.lower node_id;
                r_from_id := from_id;
                r_destination :=
                  or_int (ov_destination ov)
                    (kwargs_get (kw_to kw) (message_destination_id config)) |}
      end
  else
    let client := st_client st in
    let node_id := or_str (ov_node_id ov) (client_node_id client) in
    if negb (PyStr.startswith "!" node_id) then Raise ValueError_sigil
    else
      match PyStr.int16 (PyStr.remove_char "!" node_id) with
      | None => Raise (ValueError_literal (PyStr.remove_char "!" node_id))
      | Some from_id =>
          Ok {| r_node_id := node_id;
                r_channel_id :=
                  or_str (ov_channel_preset ov) (client_channel client);
                r_channel_key :=
                  match ov_channel_key ov with
                  | Some k => k
                  | None => client_key client
                  end;
                r_gateway_id := PyStr.lower node_id;
                r_from_id := from_id;
                r_destination :=
                  or_int (ov_destination ov)
                    (kwargs_get (kw_to kw) (client_destination_id client)) |}
      end.

(** [message.encode("utf-8")] on code points below 256. *)
Fixpoint encode_utf8 (s : string) : bytes :=
  match s with
  | EmptyString => EmptyString
  | String a s' =>
      let n := N_of_ascii a in
      if (n <? 128)%N then String a (encode_utf8 s')
      else String (ascii_of_N (192 + N.shiftr n 6))
             (String (ascii_of_N (128 + N.land n 63)) (encode_utf8 s'))
  end.

Definition TEXT_MESSAGE_APP : Z := 1.

(** The keyword arguments of the sends [handle_args] makes for
    [--message]: [use_config=True, _overrides=_overrides]. *)
Definition message_kwargs (ov : Overrides) : Kwargs :=
  {| use_config := true; kw_overrides := Some ov; kw_to := None;
     kw_want_ack := None; kw_want_response := None;
     kw_hop_limit := None; kw_hop_start := None |}.

Section Collaborators.

(** The parts of the repository and of its libraries that the module
    calls and that lie outside it. *)

(** [mmqtt.utils.generate_hash(name, key)] *)
Variable generate_hash : string -> string -> result Z.
(** [mmqtt.utils.get_message_id(previous)] *)
Variable get_message_id : Z -> Z.
(** [mmqtt.encryption.encrypt_packet(channel, key, mesh_packet, data)],
    by its contract in the specification,
    [encrypt(channel_name, channel_key, packet_id, from_id, bytes) -> bytes]:
    it reads the packet and does not change it. *)
Variable encrypt_packet : string -> string -> MeshPacket -> Data -> result bytes.
(** [ServiceEnvelope.SerializeToString()] *)
Variable SerializeToString : ServiceEnvelope -> bytes.
(** [client.publish(topic, payload)] *)
Variable client_publish : string -> bytes -> result unit.

(** Lines 82-134 of [generate_mesh_packet]: everything up to the
    serialisation. *)
Definition generate_mesh_packet_envelope (encoded_message : Data)
    (kw : Kwargs) : M ServiceEnvelope :=
  match kw_overrides kw with
  | None => raise TypeError_subscript
  | Some ov =>
      st <- get ;;
      r <- lift (resolve kw ov st) ;;
      if is_reserved (r_from_id r) then raise (ValueError_reserved (r_from_id r))
      else
        let message_id := get_message_id (st_message_id st) in
        put (set_message_id st message_id) ;;;
        id <- lift (check_u32 message_id) ;;
        from <- lift (check_u32 (r_from_id r)) ;;
        to <- lift (check_u32 (r_destination r)) ;;
        hash <- lift (generate_hash (r_channel_id r) (r_channel_key r)) ;;
        channel <- lift (check_u32 hash) ;;
        hop_limit <- lift (check_u32
          (or_int (ov_hop_limit ov) (kwargs_get (kw_hop_limit kw) 3))) ;;
        hop_start <- lift (check_u32
          (or_int (ov_hop_limit ov) (kwargs_get (kw_hop_start kw) 3))) ;;
        let mesh_packet :=
          {| mp_id := id; mp_from := from; mp_to := to;
             mp_want_ack := kwargs_get (kw_want_ack kw) false;
             mp_channel := channel;
             mp_hop_limit := hop_limit; mp_hop_start := hop_start;
             mp_decoded := None; mp_encrypted := None |} in
        mesh_packet' <-
          (if String.eqb (r_channel_key r) "" then
             ret (set_decoded mesh_packet encoded_message)
           else
             emit (EvEncrypt (r_channel_id r) (r_channel_key r)
                     mesh_packet encoded_message) ;;;
             encrypted <- lift (encrypt_packet (r_channel_id r)
                                  (r_channel_key r) mesh_packet
                                  encoded_message) ;;
             ret (set_encrypted mesh_packet encrypted)) ;;
        ret {| packet := mesh_packet';
               channel_id := r_channel_id r;
               gateway_id := r_gateway_id r |}
  end.

Definition generate_mesh_packet (encoded_message : Data) (kw : Kwargs)
  : M bytes :=
  service_envelope <- generate_mesh_packet_envelope encoded_message kw ;;
  ret (SerializeToString service_envelope).

(** [create_payload(data, portnum, bitfield=1, **kwargs)] for [data]
    already in bytes; [portnum] is one of the [PortNum] constants. *)
Definition create_payload (data : bytes) (portnum : Z) (bitfield : Z)
    (kw : Kwargs) : M bytes :=
  bitfield' <- lift (check_u32 bitfield) ;;
  generate_mesh_packet
    {| portnum := portnum; payload := data;
       want_response := kwargs_get (kw_want_response kw) false;
       bitfield := bitfield' |} kw.

(** [publish_message(payload_function, portnum, **kwargs)].  The three
    header lines it prints are one [EvTx] event; the per-key lines that
    follow are not modelled. *)
Definition publish_message (payload_function : Z -> Kwargs -> M bytes)
    (portnum : Z) (kw : Kwargs) : M unit :=
  try_except
    (ov <- match kw_overrides kw with
           | Some ov => ret ov
           | None => raise TypeError_subscript
           end ;;
     st <- get ;;
     topic <-
       (if use_config kw then
          let config := st_config st in
          let config' :=
            {| nodeinfo_id := or_str (ov_node_id ov) (nodeinfo_id config);
               channel_preset :=
                 or_str (ov_channel_preset ov) (channel_preset config);
               channel_key := channel_key config;
               mqtt_root_topic := mqtt_root_topic config;
               message_destination_id := message_destination_id config |} in
          put (set_config st config') ;;;
          ret (mqtt_root_topic config' ++ "/2/e/" ++ channel_preset config'
               ++ "/" ++ PyStr.lower (nodeinfo_id config'))
        else
          let client := st_client st in
          let client' :=
            {| client_node_id := or_str (ov_node_id ov) (client_node_id client);
               client_channel :=
                 or_str (ov_channel_preset ov) (client_channel client);
               client_key := client_key client;
               client_root_topic := client_root_topic client;
               client_destination_id := client_destination_id client |} in
          put (set_client st client') ;;;
          ret (client_root_topic client' ++ "/2/e/" ++ client_channel client'
               ++ "/" ++ PyStr.lower (client_node_id client'))) ;;
     let destination :=
       match kw_to kw with
       | Some to => to
       | None =>
           match ov_destination ov with
           | Some d => d
           | None => if use_config kw
                     then message_destination_id (st_config st)
                     else client_destination_id (st_client st)
           end
       end in
     payload <- payload_function portnum kw ;;
     emit (EvTx portnum topic destination) ;;;
     emit (EvPublish topic payload) ;;;
     lift (client_publish topic payload))
    (fun e => emit (EvError e)).

(** [send_text_message(message, **kwargs)] with its inner
    [create_text_payload]. *)
Definition create_text_payload (message : string) (portnum : Z)
    (kw : Kwargs) : M bytes :=
  create_payload (encode_utf8 message) portnum 1 kw.

Definition send_text_message (message : string) (kw : Kwargs) : M unit :=
  publish_message (create_text_payload message) TEXT_MESSAGE_APP kw.

(** The [--message] loop of [handle_args] (lines 130-132); the pauses
    between sends change no state. *)
Fixpoint send_messages (messages : list string) (ov : Overrides) : M unit :=
  match messages with
  | [] => ret tt
  | msg :: rest =>
      send_text_message msg (message_kwargs ov) ;;;
      send_messages rest ov
  end.

End Collaborators.

(** ** The overrides built by [handle_args] (argument_parser.py) *)

(** The command-line values [handle_args] reads for a send. *)
Record Args := {
  args_node_id : option string;
  args_channel_preset : option string;
  args_channel_key : option string;
  args_destination : option Z;
  args_hop_limit : option Z;
  args_priority : option string
}.

(** [x or None] *)
Definition or_none_str (a : option string) : option string :=
  match a with
  | Some EmptyString | None => None
  | Some s => Some s
  end.

Definition or_none_int (a : option Z) : option Z :=
  match a with
  | Some 0 | None => None
  | Some n => Some n
  end.

(** Lines 93-111 of [handle_args]. *)
Definition handle_args_overrides (args : Args) : Overrides :=
  let channel_key :=
    match args_channel_key args with
    | None => None
    | Some k => if String.eqb k "" then Some "" else Some k
    end in
  {| ov_node_id := or_none_str (args_node_id args);
     ov_channel_preset := or_none_str (args_channel_preset args);
     ov_channel_key := channel_key;
     ov_destination := or_none_int (args_destination args);
     ov_hop_limit := or_none_int (args_hop_limit args);
     ov_priority := or_none_str (args_priority args) |}.

(** ** Vocabulary of the specification *)

(** The spec's error kind [InvalidNodeId]: the [ValueError]s that the
    identity stage raises. *)
Definition InvalidNodeId (e : exn) : Prop :=
  match e with
  | ValueError_sigil | ValueError_reserved _ | ValueError_literal _ => True
  | _ => False
  end.

(** The node identifier, channel name and root topic a send resolves to. *)
Definition resolved_node_id (kw : Kwargs) (ov : Overrides) (st : State)
  : string :=
  or_str (ov_node_id ov)
    (if use_config kw then nodeinfo_id (st_config st)
     else client_node_id (st_client st)).

Definition resolved_channel_name (kw : Kwargs) (ov : Overrides) (st : State)
  : string :=
  or_str (ov_channel_preset ov)
    (if use_config kw then channel_preset (st_config st)
     else client_channel (st_client st)).

Definition configured_key (kw : Kwargs) (st : State) : string :=
  if use_config kw then channel_key (st_config st)
  else client_key (st_client st).

Definition configured_destination (kw : Kwargs) (st : State) : Z :=
  if use_config kw then message_destination_id (st_config st)
  else client_destination_id (st_client st).

Definition root_topic (kw : Kwargs) (st : State) : string :=
  if use_config kw then mqtt_root_topic (st_config st)
  else client_root_topic (st_client st).

(** [{root_topic}/2/e/{channel_preset}/{node_id_lowercase}] *)
Definition topic_format (root preset node_id : string) : string :=
  root ++ "/2/e/" ++ preset ++ "/" ++ PyStr.lower node_id.

(** The topic of a send. *)
Definition topic_of (kw : Kwargs) (ov : Overrides) (st : State) : string :=
  topic_format (root_topic kw st) (resolved_channel_name kw ov st)
    (resolved_node_id kw ov st).

(** The inner message of a text send. *)
Definition text_data (message : string) (portnum : Z) (kw : Kwargs) : Data :=
  {| portnum := portnum; payload := encode_utf8 message;
     want_response := kwargs_get (kw_want_response kw) false;
     bitfield := 1 |}.

(** The destination printed in the log header (lines 49-53). *)
Definition logged_destination (kw : Kwargs) (ov : Overrides) (st : State)
  : Z :=
  match kw_to kw with
  | Some to => to
  | None =>
      match ov_destination ov with
      | Some d => d
      | None => configured_destination kw st
      end
  end.

(** The state after lines 39-47 of [publish_message] have run. *)
Definition written_back (kw : Kwargs) (ov : Overrides) (st : State) : State :=
  if use_config kw then
    set_config st
      {| nodeinfo_id := resolved_node_id kw ov st;
         channel_preset := resolved_channel_name kw ov st;
         channel_key := channel_key (st_config st);
         mqtt_root_topic := mqtt_root_topic (st_config st);
         message_destination_id := message_destination_id (st_config st) |}
  else
    set_client st
      {| client_node_id := resolved_node_id kw ov st;
         client_channel := resolved_channel_name kw ov st;
         client_key := client_key (st_client st);
         client_root_topic := client_root_topic (st_client st);
         client_destination_id := client_destination_id (st_client st) |}.

Definition add_events (st : State) (evs : list Event) : State :=
  {| st_config := st_config st; st_client := st_client st;
     st_message_id := st_message_id st;
     st_events := st_events st ++ evs |}.

(** A plain hexadecimal numeral: one or more of [0-9a-fA-F]. *)
Fixpoint all_hex (s : string) : bool :=
  match s with
  | EmptyString => true
  | String a s' =>
      match PyStr.hex_digit a with Some _ => all_hex s' | None => false end
  end.

Definition is_hex_numeral (s : string) : bool :=
  negb (String.eqb s "") && all_hex s.

(** Its value, most significant digit first. *)
Fixpoint hex_value_from (acc : Z) (s : string) : Z :=
  match s with
  | EmptyString => acc
  | String a s' =>
      hex_value_from
        (16 * acc + match PyStr.hex_digit a with Some d => d | None => 0 end)
        s'
  end.

Definition hex_value (s : string) : Z := hex_value_from 0 s.

(** The hop value of a send: the override when it is set (and not zero),
    else the per-call value, else 3. *)
Definition resolved_hop (ov : Overrides) (per_call : option Z) : Z :=
  or_int (ov_hop_limit ov) (kwargs_get per_call 3).

(** *** Assembly stages *)

Section Stages.

Variable generate_hash : string -> string -> result Z.
Variable get_message_id : Z -> Z.

(** The packet as it stands when line 126 is reached. *)
Definition packet_at_body (kw : Kwargs) (ov : Overrides) (r : Resolved)
    (st : State) (hash : Z) : MeshPacket :=
  {| mp_id := get_message_id (st_message_id st);
     mp_from := r_from_id r;
     mp_to := r_destination r;
     mp_want_ack := kwargs_get (kw_want_ack kw) false;
     mp_channel := hash;
     mp_hop_limit := resolved_hop ov (kw_hop_limit kw);
     mp_hop_start := resolved_hop ov (kw_hop_start kw);
     mp_decoded := None; mp_encrypted := None |}.

(** The checks of lines 110-124 other than the one on the destination:
    the source is not reserved, and the message id, the source, the
    channel hash and the hop values fit their fields. *)
Definition checks_pass (kw : Kwargs) (ov : Overrides) (r : Resolved)
    (st : State) (hash : Z) : Prop :=
  is_reserved (r_from_id r) = false /\
  u32 (get_message_id (st_message_id st)) /\
  u32 (r_from_id r) /\
  generate_hash (r_channel_id r) (r_channel_key r) = Ok hash /\
  u32 hash /\
  u32 (resolved_hop ov (kw_hop_limit kw)) /\
  u32 (resolved_hop ov (kw_hop_start kw)).

(** All the checks of lines 110-124. *)
Definition all_checks_pass (kw : Kwargs) (ov : Overrides) (r : Resolved)
    (st : State) (hash : Z) : Prop :=
  checks_pass kw ov r st hash /\ u32 (r_destination r).

End Stages.

(** What [resolve] returns for a node identifier that passes, given the
    number [from_id] read from it. *)
Definition resolved_with (kw : Kwargs) (ov : Overrides) (st : State)
    (from_id : Z) : Resolved :=
  {| r_node_id := resolved_node_id kw ov st;
     r_channel_id := resolved_channel_name kw ov st;
     r_channel_key :=
       match ov_channel_key ov with
       | Some k => k
       | None => configured_key kw st
       end;
     r_gateway_id := PyStr.lower (resolved_node_id kw ov st);
     r_from_id := from_id;
     r_destination :=
       or_int (ov_destination ov)
         (kwargs_get (kw_to kw) (configured_destination kw st)) |}.

(** ** Sample collaborators and inputs *)

Module Sample.

Definition generate_hash (name key : string) : result Z := Ok 8.
Definition get_message_id (previous : Z) : Z := (previous + 1) mod 2 ^ 32.
Definition encrypt_packet (channel key : string) (p : MeshPacket) (d : Data)
  : result bytes := Ok ("enc:" ++ payload d).
Definition failing_encrypt (channel key : string) (p : MeshPacket) (d : Data)
  : result bytes := Raise (Collaborator "InvalidKey" "bad key").
Definition SerializeToString (e : ServiceEnvelope) : bytes :=
  gateway_id e ++ "|" ++ channel_id e.
Definition client_publish (topic : string) (payload : bytes) : result unit :=
  Ok tt.

Definition config : Config :=
  {| nodeinfo_id := "!A1B2C3D4"; channel_preset := "LongFast";
     channel_key := "AQ=="; mqtt_root_topic := "msh/US";
     message_destination_id := 4294967295 |}.

Definition client : Client :=
  {| client_node_id := "!deadbeef"; client_channel := "LongFast";
     client_key := ""; client_root_topic := "msh/EU";
     client_destination_id := 4294967295 |}.

Definition state : State :=
  {| st_config := config; st_client := client; st_message_id := 41;
     st_events := [] |}.

Definition no_overrides : Overrides :=
  {| ov_node_id := None; ov_channel_preset := None; ov_channel_key := None;
     ov_destination := None; ov_hop_limit := None; ov_priority := None |}.

Definition kwargs (ov : Overrides) : Kwargs := message_kwargs ov.

Definition cleartext_overrides : Overrides :=
  {| ov_node_id := None; ov_channel_preset := None;
     ov_channel_key := Some ""; ov_destination := None;
     ov_hop_limit := None; ov_priority := None |}.

(** A direct call that sets the per-call [hop_limit] only. *)
Definition kwargs_hop_limit_5 : Kwargs :=
  {| use_config := true; kw_overrides := Some cleartext_overrides;
     kw_to := None; kw_want_ack := None; kw_want_response := None;
     kw_hop_limit := Some 5; kw_hop_start := None |}.

Definition overrides_node_id (node_id : string) : Overrides :=
  {| ov_node_id := Some node_id; ov_channel_preset := None;
     ov_channel_key := Some ""; ov_destination := None;
     ov_hop_limit := None; ov_priority := None |}.

Definition text : Data :=
  {| portnum := TEXT_MESSAGE_APP; payload := "hi"; want_response := false;
     bitfield := 1 |}.

End Sample.

(** ** The rest of tx_message_handler.py and argument_parser.py *)

(** [get_portnum_name(portnum)] over the items of [portnums_pb2.PortNum],
    in their order. *)
Fixpoint get_portnum_name (items : list (string * Z)) (portnum : Z)
  : string :=
  match items with
  | [] => "UNKNOWN_PORTNUM (" ++ PyStr.str_of_int portnum ++ ")"
  | (name, number) :: rest =>
      if number =? portnum then name else get_portnum_name rest portnum
  end.

(** [str.strip()]: white space, as [str.isspace] has it on code points
    below 256, goes from both ends. *)
Definition is_unicode_space (a : ascii) : bool :=
  let n := N_of_ascii a in
  ((9 <=? n) && (n <=? 13) || (28 <=? n) && (n <=? 32)
   || (n =? 133) || (n =? 160))%N.

Fixpoint lstrip (s : string) : string :=
  match s with
  | String a s' => if is_unicode_space a then lstrip s' else s
  | EmptyString => EmptyString
  end.

Fixpoint rstrip (s : string) : string :=
  match s with
  | EmptyString => EmptyString
  | String a s' =>
      match rstrip s' with
      | EmptyString => if is_unicode_space a then EmptyString
                       else String a EmptyString
      | t => String a t
      end
  end.

Definition strip (s : string) : string := rstrip (lstrip s).

(** [[line.strip() for line in f if line.strip()]] (line 138). *)
Fixpoint file_lines (f : list string) : list string :=
  match f with
  | [] => []
  | line :: rest =>
      if String.eqb (strip line) "" then file_lines rest
      else strip line :: file_lines rest
  end.

(** The keyword arguments of the sends made for [--message-file]:
    [use_config=True] and nothing else (line 140). *)
Definition message_file_kwargs : Kwargs :=
  {| use_config := true; kw_overrides := None; kw_to := None;
     kw_want_ack := None; kw_want_response := None;
     kw_hop_limit := None; kw_hop_start := None |}.

(** The class test of [except FileNotFoundError]. *)
Definition is_FileNotFoundError (e : exn) : bool :=
  match e with
  | Collaborator class_name _ => String.eqb class_name "FileNotFoundError"
  | _ => false
  end.

(** What [handle_args] reads from the parsed command line beside the
    overrides: [args.nodeinfo], [args.message], [args.message_file],
    [args.position], [args.telemetry], [args.environment], [args.power]. *)
Record Flags := {
  args_nodeinfo : bool;
  args_message : option (list string);
  args_message_file : option string;
  args_position : bool;
  args_telemetry : bool;
  args_environment : bool;
  args_power : bool
}.

Section HandleArgs.

Variable generate_hash : string -> string -> result Z.
Variable get_message_id : Z -> Z.
Variable encrypt_packet : string -> string -> MeshPacket -> Data -> result bytes.
Variable SerializeToString : ServiceEnvelope -> bytes.
Variable client_publish : string -> bytes -> result unit.

(** [open(path)] followed by the iteration over the file: the lines, or
    the exception raised. *)
Variable read_lines : string -> result (list string).

(** The calls of lines 117-126, 151-152, 158-166, 171-182 and 187-196 as
    they stand, arguments included. *)
Variable nodeinfo_call : M unit.
Variable position_call : M unit.
Variable telemetry_call : M unit.
Variable environment_call : M unit.
Variable power_call : M unit.

(** The loop of line 139-141. *)
Fixpoint send_file_lines (lines : list string) : M unit :=
  match lines with
  | [] => ret tt
  | msg :: rest =>
      send_text_message generate_hash get_message_id encrypt_packet
        SerializeToString client_publish msg message_file_kwargs ;;;
      send_file_lines rest
  end.

(** Lines 136-143: the [try] around the file and its sends. *)
Definition send_message_file (path : string) : M unit :=
  match read_lines path with
  | Ok f => send_file_lines (file_lines f)
  | Raise e => if is_FileNotFoundError e then ret tt else raise e
  end.

(** The loop of lines 113-197 over [sys.argv[1:]], with [messages] as
    its running value; what it prints and its pauses are left out. *)
Fixpoint handle_args_loop (flags : Flags) (ov : Overrides)
    (arg_order : list string) (messages : list string) : M unit :=
  match arg_order with
  | [] => ret tt
  | arg :: rest =>
      if String.eqb arg "--nodeinfo" && args_nodeinfo flags then
        nodeinfo_call ;;; handle_args_loop flags ov rest messages
      else if String.eqb arg "--message"
              && match messages with [] => false | _ => true end then
        send_messages generate_hash get_message_id encrypt_packet
          SerializeToString client_publish messages ov ;;;
        handle_args_loop flags ov rest []
      else if String.eqb arg "--message-file"
              && match args_message_file flags with
                 | Some (String _ _) => true
                 | _ => false
                 end then
        send_message_file
          (match args_message_file flags with Some p => p | None => "" end) ;;;
        handle_args_loop flags ov rest messages
      else if String.eqb arg "--position" && args_position flags then
        position_call ;;; handle_args_loop flags ov rest messages
      else if String.eqb arg "--telemetry" && args_telemetry flags then
        telemetry_call ;;; handle_args_loop flags ov rest messages
      else if String.eqb arg "--environment" && args_environment flags then
        environment_call ;;; handle_args_loop flags ov rest messages
      else if String.eqb arg "--power" && args_power flags then
        power_call ;;; handle_args_loop flags ov rest messages
      else handle_args_loop flags ov rest messages
  end.

(** [handle_args] from line 89 to line 197. *)
Definition handle_args_sends (args : Args) (flags : Flags)
    (argv : list string) : M unit :=
  handle_args_loop flags (handle_args_overrides args) argv
    (match args_message flags with Some l => l | None => [] end).

End HandleArgs.

(** The tokens the loop of [handle_args] answers to. *)
Definition action_tokens : list string :=
  ["--nodeinfo"; "--message"; "--message-file"; "--position";
   "--telemetry"; "--environment"; "--power"].

(** [n] applications of [f]. *)
Fixpoint iterate {A} (f : A -> A) (n : nat) (a : A) : A :=
  match n with
  | O => a
  | S n' => iterate f n' (f a)
  end.

(** Among the code points below 256, the characters [int(s, 16)] can
    accept at all: white space, hexadecimal digits, the underscore, the
    signs and the [x] of the prefix. *)
Definition literal_char (a : ascii) : bool :=
  PyStr.is_space a
  || match PyStr.hex_digit a with Some _ => true | None => false end
  || Ascii.eqb a "_" || Ascii.eqb a "+" || Ascii.eqb a "-"
  || Ascii.eqb a "x" || Ascii.eqb a "X".

Fixpoint all_chars (f : ascii -> bool) (s : string) : bool :=
  match s with
  | EmptyString => true
  | String a s' => f a && all_chars f s'
  end.

(** The characters a node identifier can be made of. *)
Definition identifier_char (a : ascii) : bool :=
  literal_char a || Ascii.eqb a "!".

(** What decides the identity stage of a command-line send. *)
Definition identity_of (ov : Overrides) (st : State) : string :=
  resolved_node_id (message_kwargs ov) ov st.


(** ** Further sample inputs *)

Module Scenario.

(** A direct call with a per-call [to] of 9 under a [--destination] of 7,
    in cleartext. *)
Definition overrides_destination_7 : Overrides :=
  {| ov_node_id := None; ov_channel_preset := None;
     ov_channel_key := Some ""; ov_destination := Some 7;
     ov_hop_limit := None; ov_priority := None |}.

Definition kwargs_to_9 : Kwargs :=
  {| use_config := true; kw_overrides := Some overrides_destination_7;
     kw_to := Some 9; kw_want_ack := None; kw_want_response := None;
     kw_hop_limit := None; kw_hop_start := None |}.

(** A call that reads the [client] module instead of the configuration. *)
Definition client_kwargs (ov : Overrides) : Kwargs :=
  {| use_config := false; kw_overrides := Some ov; kw_to := None;
     kw_want_ack := None; kw_want_response := None;
     kw_hop_limit := None; kw_hop_start := None |}.

(** [--hop_limit 0 --destination 0 --channel_key ""] *)
Definition args_zero : Args :=
  {| args_node_id := None; args_channel_preset := None;
     args_channel_key := Some ""; args_destination := Some 0;
     args_hop_limit := Some 0; args_priority := None |}.

Definition flags : Flags :=
  {| args_nodeinfo := true; args_message := Some ["a"; "b"];
     args_message_file := None; args_position := false;
     args_telemetry := false; args_environment := false;
     args_power := false |}.

Definition read_lines (path : string) : result (list string) :=
  Ok [" hello "; "   "; "x"].

Definition no_call : M unit := ret tt.

End Scenario.

Example int16_a1b2c3d4 : PyStr.int16 "a1b2c3d4" = Some 2712847316.
Proof. reflexivity. Qed.
Example int16_prefixed : PyStr.int16 " -0x_F_f " = Some (-255).
Proof. reflexivity. Qed.
Example int16_empty : PyStr.int16 "" = None.
Proof. reflexivity. Qed.
Example int16_double_us : PyStr.int16 "1__2" = None.
Proof. reflexivity. Qed.
Example int16_0x_only : PyStr.int16 "0x" = None.
Proof. reflexivity. Qed.
Example lower_id : PyStr.lower "!A1B2c3D4" = "!a1b2c3d4".
Proof. reflexivity. Qed.
Example str_of_int_bcast : PyStr.str_of_int 4294967295 = "4294967295".
Proof. reflexivity. Qed.
Example message_of_reserved :
  message_of (ValueError_reserved 4294967295)
  = Some "Node ID '4294967295' is reserved and cannot be used. Please choose a different ID.".
Proof. reflexivity. Qed.
Example handle_args_empty_key :
  ov_channel_key
    (handle_args_overrides
       {| args_node_id := Some ""; args_channel_preset := None;
          args_channel_key := Some ""; args_destination := Some 0;
          args_hop_limit := None; args_priority := None |}) = Some "".
Proof. reflexivity. Qed.


(** * Properties *)

(** ** Basic facts *)

Lemma check_u32_Ok (v w : Z) : check_u32 v = Ok w -> w = v /\ u32 v.
Proof.
  unfold check_u32, u32b, u32.
  destruct (0 <=? v) eqn:Hlo; destruct (v <? 2 ^ 32) eqn:Hhi; simpl;
    intros H; inversion H; subst.
  apply Z.leb_le in Hlo. apply Z.ltb_lt in Hhi. split; [reflexivity | lia].
Qed.

Lemma check_u32_u32 (v : Z) : u32 v -> check_u32 v = Ok v.
Proof.
  unfold check_u32, u32b, u32. intros [Hlo Hhi].
  apply Z.leb_le in Hlo. apply Z.ltb_lt in Hhi. now rewrite Hlo, Hhi.
Qed.

Lemma is_reserved_In (v : Z) : is_reserved v = true <-> In v reserved_ids.
Proof.
  unfold is_reserved. rewrite existsb_exists. split.
  - intros [x [Hin Heq]]. apply Z.eqb_eq in Heq. now subst.
  - intros Hin. exists v. split; [assumption | apply Z.eqb_refl].
Qed.

Lemma or_str_nonempty (s b : string) : s <> "" -> or_str (Some s) b = s.
Proof. destruct s; [congruence | reflexivity]. Qed.

Lemma or_int_nonzero (n b : Z) : n <> 0 -> or_int (Some n) b = n.
Proof. destruct n; [congruence | reflexivity | reflexivity]. Qed.

Lemma eqb_empty (s : string) : String.eqb s "" = true <-> s = "".
Proof. apply String.eqb_eq. Qed.

(** What [resolve] returns when it returns. *)
Lemma resolve_Ok (kw : Kwargs) (ov : Overrides) (st : State) (r : Resolved) :
  resolve kw ov st = Ok r ->
  r_node_id r = resolved_node_id kw ov st /\
  PyStr.startswith "!" (r_node_id r) = true /\
  PyStr.int16 (PyStr.remove_char "!" (r_node_id r)) = Some (r_from_id r) /\
  r_channel_id r = resolved_channel_name kw ov st /\
  r_channel_key r =
    match ov_channel_key ov with
    | Some k => k
    | None => configured_key kw st
    end /\
  r_gateway_id r = PyStr.lower (r_node_id r) /\
  r_destination r =
    or_int (ov_destination ov)
      (kwargs_get (kw_to kw) (configured_destination kw st)).
Proof.
  unfold resolve, resolved_node_id, resolved_channel_name, configured_key,
    configured_destination.
  destruct (use_config kw).
  - destruct (PyStr.startswith "!" _) eqn:Hs; simpl; [| discriminate].
    destruct (PyStr.int16 _) eqn:Hi; [| discriminate].
    intros H; inversion H; subst; clear H; simpl. auto 10.
  - destruct (PyStr.startswith "!" _) eqn:Hs; simpl; [| discriminate].
    destruct (PyStr.int16 _) eqn:Hi; [| discriminate].
    intros H; inversion H; subst; clear H; simpl. auto 10.
Qed.

(** The converse: a sigil and a literal that parses are all it needs. *)
Lemma resolve_succeeds (kw : Kwargs) (ov : Overrides) (st : State) (v : Z) :
  PyStr.startswith "!" (resolved_node_id kw ov st) = true ->
  PyStr.int16 (PyStr.remove_char "!" (resolved_node_id kw ov st)) = Some v ->
  resolve kw ov st = Ok (resolved_with kw ov st v).
Proof.
  unfold resolve, resolved_with, resolved_node_id, resolved_channel_name,
    configured_key, configured_destination.
  intros Hs Hi. destruct (use_config kw); rewrite Hs, Hi; reflexivity.
Qed.

(** ** Packet assembly *)

Section Assembly.

Variable generate_hash : string -> string -> result Z.
Variable get_message_id : Z -> Z.
Variable encrypt_packet : string -> string -> MeshPacket -> Data -> result bytes.
Variable SerializeToString : ServiceEnvelope -> bytes.

Local Abbreviation envelope :=
  (generate_mesh_packet_envelope generate_hash get_message_id encrypt_packet).
Local Abbreviation assemble :=
  (generate_mesh_packet generate_hash get_message_id encrypt_packet
     SerializeToString).

Local Abbreviation packet_before_body := (packet_at_body get_message_id).
Local Abbreviation fields_fit := (all_checks_pass generate_hash get_message_id).

Ltac run := unfold bind, ret, raise, lift, get, put, emit; simpl.

Lemma envelope_inv (data : Data) (kw : Kwargs) (st st' : State)
    (env : ServiceEnvelope) :
  envelope data kw st = (Ok env, st') ->
  exists ov r hash,
    kw_overrides kw = Some ov /\
    resolve kw ov st = Ok r /\
    fields_fit kw ov r st hash /\
    channel_id env = r_channel_id r /\
    gateway_id env = r_gateway_id r /\
    let p := packet_before_body kw ov r st hash in
    let st1 := set_message_id st (get_message_id (st_message_id st)) in
    (r_channel_key r = "" /\
     packet env = set_decoded p data /\ st' = st1) \/
    (r_channel_key r <> "" /\
     exists ct,
       encrypt_packet (r_channel_id r) (r_channel_key r) p data = Ok ct /\
       packet env = set_encrypted p ct /\
       st' = add_events st1
               [EvEncrypt (r_channel_id r) (r_channel_key r) p data]).
Proof.
  unfold generate_mesh_packet_envelope.
  destruct (kw_overrides kw) as [ov |] eqn:Hov; [| run; discriminate].
  run. destruct (resolve kw ov st) as [r | e] eqn:Hr; [| discriminate].
  destruct (is_reserved (r_from_id r)) eqn:Hres; run; [discriminate |].
  destruct (check_u32 (get_message_id _)) as [id |] eqn:Hid; [| discriminate].
  destruct (check_u32 (r_from_id r)) as [from |] eqn:Hfrom; [| discriminate].
  destruct (check_u32 (r_destination r)) as [to |] eqn:Hto; [| discriminate].
  destruct (generate_hash _ _) as [hash |] eqn:Hh; [| discriminate].
  destruct (check_u32 hash) as [channel |] eqn:Hch; [| discriminate].
  destruct (check_u32 (or_int _ (kwargs_get (kw_hop_limit kw) 3)))
    as [hl |] eqn:Hhl; [| discriminate].
  destruct (check_u32 (or_int _ (kwargs_get (kw_hop_start kw) 3)))
    as [hs |] eqn:Hhs; [| discriminate].
  apply check_u32_Ok in Hid, Hfrom, Hto, Hch, Hhl, Hhs.
  destruct Hid as [-> Hid], Hfrom as [-> Hfrom], Hto as [-> Hto],
    Hch as [-> Hch], Hhl as [-> Hhl], Hhs as [-> Hhs].
  intros H. exists ov, r, hash.
  split; [reflexivity |]. split; [exact Hr |].
  split; [unfold all_checks_pass, checks_pass, resolved_hop; auto 10 |].
  destruct (String.eqb (r_channel_key r) "") eqn:Hk.
  - apply eqb_empty in Hk. inversion H; subst; clear H. simpl.
    split; [reflexivity |]. split; [reflexivity |]. left. auto.
  - apply String.eqb_neq in Hk. revert H. run.
    destruct (encrypt_packet _ _ _ _) as [ct |] eqn:He; [| discriminate].
    intros H; inversion H; subst; clear H. simpl.
    split; [reflexivity |]. split; [reflexivity |]. right.
    split; [assumption |]. exists ct. auto.
Qed.

(** Assembly in cleartext succeeds once the checks pass. *)
Lemma envelope_cleartext (data : Data) (kw : Kwargs) (ov : Overrides)
    (r : Resolved) (st : State) (hash : Z) :
  kw_overrides kw = Some ov ->
  resolve kw ov st = Ok r ->
  fields_fit kw ov r st hash ->
  r_channel_key r = "" ->
  envelope data kw st =
    (Ok {| packet := set_decoded (packet_before_body kw ov r st hash) data;
           channel_id := r_channel_id r;
           gateway_id := r_gateway_id r |},
     set_message_id st (get_message_id (st_message_id st))).
Proof.
  intros Hov Hr ((Hres & Hid & Hfrom & Hh & Hch & Hhl & Hhs) & Hto) Hk.
  unfold generate_mesh_packet_envelope. rewrite Hov. run. rewrite Hr, Hres.
  run. unfold resolved_hop in Hhl, Hhs.
  rewrite (check_u32_u32 _ Hid), (check_u32_u32 _ Hfrom),
    (check_u32_u32 _ Hto), Hh, (check_u32_u32 _ Hch),
    (check_u32_u32 _ Hhl), (check_u32_u32 _ Hhs), Hk.
  reflexivity.
Qed.

(** Assembly under a key succeeds once the checks pass and the
    encryption does. *)
Lemma envelope_encrypted (data : Data) (kw : Kwargs) (ov : Overrides)
    (r : Resolved) (st : State) (hash : Z) (ct : bytes) :
  kw_overrides kw = Some ov ->
  resolve kw ov st = Ok r ->
  fields_fit kw ov r st hash ->
  r_channel_key r <> "" ->
  encrypt_packet (r_channel_id r) (r_channel_key r)
    (packet_before_body kw ov r st hash) data = Ok ct ->
  envelope data kw st =
    (Ok {| packet := set_encrypted (packet_before_body kw ov r st hash) ct;
           channel_id := r_channel_id r;
           gateway_id := r_gateway_id r |},
     add_events (set_message_id st (get_message_id (st_message_id st)))
       [EvEncrypt (r_channel_id r) (r_channel_key r)
          (packet_before_body kw ov r st hash) data]).
Proof.
  intros Hov Hr ((Hres & Hid & Hfrom & Hh & Hch & Hhl & Hhs) & Hto) Hk He.
  unfold generate_mesh_packet_envelope. rewrite Hov. run. rewrite Hr, Hres.
  run. unfold resolved_hop in Hhl, Hhs.
  rewrite (check_u32_u32 _ Hid), (check_u32_u32 _ Hfrom),
    (check_u32_u32 _ Hto), Hh, (check_u32_u32 _ Hch),
    (check_u32_u32 _ Hhl), (check_u32_u32 _ Hhs).
  apply String.eqb_neq in Hk. rewrite Hk. run.
  unfold packet_at_body, resolved_hop in He. rewrite He.
  reflexivity.
Qed.

End Assembly.

(** ** [int(s, 16)] on plain hexadecimal numerals *)

Lemma hex_digit_plain (a : ascii) (d : Z) :
  PyStr.hex_digit a = Some d ->
  PyStr.is_space a = false /\ Ascii.eqb a "_" = false /\
  Ascii.eqb a "x" || Ascii.eqb a "X" = false /\
  forall s, PyStr.strip_sign (String a s) = (false, String a s).
Proof.
  destruct a as [[] [] [] [] [] [] [] []]; vm_compute; intros H;
    try discriminate H; repeat split; reflexivity.
Qed.

Lemma strip_0x_hex (s : string) : all_hex s = true -> PyStr.strip_0x s = s.
Proof.
  destruct s as [| a [| c s']]; [reflexivity | |].
  { intros _. destruct a as [[] [] [] [] [] [] [] []]; reflexivity. }
  simpl. destruct (PyStr.hex_digit a); [| discriminate].
  destruct (PyStr.hex_digit c) as [d |] eqn:Hc; [| discriminate].
  intros _. apply hex_digit_plain in Hc. destruct Hc as (_ & _ & Hx & _).
  unfold PyStr.strip_0x.
  destruct a as [[] [] [] [] [] [] [] []]; try reflexivity.
  now rewrite Hx.
Qed.

Lemma scan_digits_hex (s : string) : forall acc,
  all_hex s = true ->
  PyStr.scan_digits false acc s = Some (hex_value_from acc s, "").
Proof.
  induction s as [| a s IH]; intros acc H; simpl in *.
  - reflexivity.
  - destruct (PyStr.hex_digit a) as [d |] eqn:Hd; [| discriminate].
    destruct (hex_digit_plain _ _ Hd) as (_ & Hus & _).
    rewrite Hus. now apply IH.
Qed.

(** Python reads a plain hexadecimal numeral as its value. *)
Lemma int16_hex_numeral (s : string) :
  is_hex_numeral s = true -> PyStr.int16 s = Some (hex_value s).
Proof.
  unfold is_hex_numeral. intros H. apply andb_true_iff in H.
  destruct H as [Hne Hall]. destruct s as [| a s]; [discriminate |].
  assert (Hd : exists d, PyStr.hex_digit a = Some d).
  { simpl in Hall. destruct (PyStr.hex_digit a); [eauto | discriminate]. }
  destruct Hd as [d Hd].
  destruct (hex_digit_plain _ _ Hd) as (Hsp & _ & _ & Hsign).
  unfold PyStr.int16. simpl PyStr.skip_spaces. rewrite Hsp, Hsign.
  rewrite (strip_0x_hex _ Hall). unfold PyStr.starts_with_digit.
  rewrite Hd, (scan_digits_hex _ 0 Hall). reflexivity.
Qed.

Lemma hex_digit_range (a : ascii) (d : Z) :
  PyStr.hex_digit a = Some d -> 0 <= d < 16.
Proof.
  intros H.
  destruct a as [[] [] [] [] [] [] [] []]; vm_compute in H;
    try discriminate H; injection H as <-; lia.
Qed.

Lemma hex_value_from_nonneg (s : string) : forall acc,
  0 <= acc -> 0 <= hex_value_from acc s.
Proof.
  induction s as [| a s IH]; intros acc Hacc; cbn [hex_value_from];
    [assumption |].
  apply IH. destruct (PyStr.hex_digit a) as [d |] eqn:Hd; [| lia].
  apply hex_digit_range in Hd. lia.
Qed.

(** ** Claims about packet assembly *)

Section AssemblyClaims.

Variable generate_hash : string -> string -> result Z.
Variable get_message_id : Z -> Z.
Variable encrypt_packet : string -> string -> MeshPacket -> Data -> result bytes.
Variable SerializeToString : ServiceEnvelope -> bytes.

Local Abbreviation envelope :=
  (generate_mesh_packet_envelope generate_hash get_message_id encrypt_packet).
Local Abbreviation assemble :=
  (generate_mesh_packet generate_hash get_message_id encrypt_packet
     SerializeToString).
Local Abbreviation packet_before_body := (packet_at_body get_message_id).

(** The body of an assembled packet, by the resolved key. *)
Lemma envelope_body (data : Data) (kw : Kwargs)
    (st st' : State) (env : ServiceEnvelope) :
  envelope data kw st = (Ok env, st') ->
  exists ov r,
    kw_overrides kw = Some ov /\ resolve kw ov st = Ok r /\
    (r_channel_key r = "" ->
       mp_decoded (packet env) = Some data /\
       mp_encrypted (packet env) = None /\
       st_events st' = st_events st) /\
    (r_channel_key r <> "" ->
       mp_decoded (packet env) = None /\
       exists ct p,
         encrypt_packet (r_channel_id r) (r_channel_key r) p data = Ok ct /\
         mp_encrypted (packet env) = Some ct /\
         st_events st' =
           (st_events st
            ++ [EvEncrypt (r_channel_id r) (r_channel_key r) p data])%list).
Proof.
  intros H. apply envelope_inv in H.
  destruct H as (ov & r & hash & Hov & Hr & _ & _ & _ & Hbody).
  exists ov, r. split; [assumption |]. split; [assumption |].
  destruct Hbody as [(Hk & Hp & Hst) | (Hk & ct & He & Hp & Hst)].
  - split; [| congruence]. intros _. rewrite Hp, Hst. simpl. auto.
  - split; [congruence |]. intros _. rewrite Hp, Hst. simpl.
    split; [reflexivity |]. eauto.
Qed.

(** C1. The resolved channel key alone decides the body of a packet.
    Going forward, for a send whose checks pass: with the empty key
    assembly returns the packet with the cleartext member holding the
    inner message, the encrypted member unset and no call of the
    encryption function on record; with any other key the encryption
    function is called once, on the packet as it stands at that point,
    and when it returns [ct] assembly returns the packet with the
    encrypted member holding [ct] and the cleartext member unset.  Going
    backward, every assembled packet is one of these two, so exactly one
    of the two members is set. *)
Theorem body_variant_by_channel_key (data : Data) (kw : Kwargs) (st : State) :
  (forall ov r hash,
     kw_overrides kw = Some ov ->
     resolve kw ov st = Ok r ->
     all_checks_pass generate_hash get_message_id kw ov r st hash ->
     let p := packet_before_body kw ov r st hash in
     let st1 := set_message_id st (get_message_id (st_message_id st)) in
     (r_channel_key r = "" ->
        exists env,
          envelope data kw st = (Ok env, st1) /\
          mp_decoded (packet env) = Some data /\
          mp_encrypted (packet env) = None /\
          st_events st1 = st_events st) /\
     (r_channel_key r <> "" ->
        forall ct,
          encrypt_packet (r_channel_id r) (r_channel_key r) p data = Ok ct ->
          exists env,
            envelope data kw st
            = (Ok env,
               add_events st1
                 [EvEncrypt (r_channel_id r) (r_channel_key r) p data]) /\
            mp_encrypted (packet env) = Some ct /\
            mp_decoded (packet env) = None)) /\
  (forall env st',
     envelope data kw st = (Ok env, st') ->
     exists ov r hash,
       kw_overrides kw = Some ov /\ resolve kw ov st = Ok r /\
       all_checks_pass generate_hash get_message_id kw ov r st hash /\
       let p := packet_before_body kw ov r st hash in
       (r_channel_key r = "" ->
          mp_decoded (packet env) = Some data /\
          mp_encrypted (packet env) = None /\
          st_events st' = st_events st) /\
       (r_channel_key r <> "" ->
          mp_decoded (packet env) = None /\
          exists ct,
            encrypt_packet (r_channel_id r) (r_channel_key r) p data = Ok ct /\
            mp_encrypted (packet env) = Some ct /\
            st_events st' =
              (st_events st
               ++ [EvEncrypt (r_channel_id r) (r_channel_key r) p data])%list)).
Proof.
  split.
  - intros ov r hash Hov Hr Hfit p st1. split.
    + intros Hk. eexists. split.
      * now apply envelope_cleartext with (ov := ov) (r := r) (hash := hash).
      * simpl. auto.
    + intros Hk ct He. eexists. split.
      * now apply envelope_encrypted with (ov := ov) (r := r) (hash := hash)
                                          (ct := ct).
      * simpl. auto.
  - intros env st' H. apply envelope_inv in H.
    destruct H as (ov & r & hash & Hov & Hr & Hfit & _ & _ & Hbody).
    exists ov, r, hash.
    split; [assumption |]. split; [assumption |]. split; [assumption |].
    destruct Hbody as [(Hk & Hp & Hst) | (Hk & ct & He & Hp & Hst)].
    + split; [| congruence]. intros _. rewrite Hp, Hst. simpl. auto.
    + split; [congruence |]. intros _. rewrite Hp, Hst. simpl.
      split; [reflexivity |]. eauto.
Qed.

(** C2. For every send whose node identifier passes, resolution succeeds
    and the channel key is the override's whenever the override is set,
    the empty string included, and the configured key when, and only
    when, the override is unset.  [handle_args] hands the command-line
    value over unchanged in all three cases.  The key so resolved is the
    one assembly goes by: an explicit empty override gives a cleartext
    packet whatever the configured key is, and an unset override over a
    non-empty configured key has the encryption function called with the
    configured key. *)
Theorem channel_key_three_valued (kw : Kwargs) (ov : Overrides) (st : State)
    (v : Z) :
  PyStr.startswith "!" (resolved_node_id kw ov st) = true ->
  PyStr.int16 (PyStr.remove_char "!" (resolved_node_id kw ov st)) = Some v ->
  (exists r,
     resolve kw ov st = Ok r /\
     (forall k, ov_channel_key ov = Some k -> r_channel_key r = k) /\
     (ov_channel_key ov = None -> r_channel_key r = configured_key kw st) /\
     (r_channel_key r = configured_key kw st ->
        ov_channel_key ov = None \/
        ov_channel_key ov = Some (configured_key kw st))) /\
  (forall args, ov_channel_key (handle_args_overrides args)
                = args_channel_key args) /\
  (forall data env st',
     kw_overrides kw = Some ov -> ov_channel_key ov = Some "" ->
     envelope data kw st = (Ok env, st') ->
     mp_decoded (packet env) = Some data /\ mp_encrypted (packet env) = None) /\
  (forall data hash,
     kw_overrides kw = Some ov -> ov_channel_key ov = Some "" ->
     all_checks_pass generate_hash get_message_id kw ov
       (resolved_with kw ov st v) st hash ->
     exists env st',
       envelope data kw st = (Ok env, st') /\
       mp_decoded (packet env) = Some data /\
       mp_encrypted (packet env) = None /\
       st_events st' = st_events st) /\
  (forall data hash ct,
     kw_overrides kw = Some ov -> ov_channel_key ov = None ->
     configured_key kw st <> "" ->
     all_checks_pass generate_hash get_message_id kw ov
       (resolved_with kw ov st v) st hash ->
     encrypt_packet (resolved_channel_name kw ov st) (configured_key kw st)
       (packet_before_body kw ov (resolved_with kw ov st v) st hash) data
     = Ok ct ->
     exists env st',
       envelope data kw st = (Ok env, st') /\
       mp_encrypted (packet env) = Some ct /\
       mp_decoded (packet env) = None /\
       st_events st' =
         (st_events st
          ++ [EvEncrypt (resolved_channel_name kw ov st) (configured_key kw st)
                (packet_before_body kw ov (resolved_with kw ov st v) st hash)
                data])%list).
Proof.
  intros Hs Hi.
  pose proof (resolve_succeeds _ _ _ _ Hs Hi) as Hr.
  destruct (resolve_Ok _ _ _ _ Hr) as (_ & _ & _ & _ & Hk & _).
  split; [| split; [| split; [| split]]].
  - exists (resolved_with kw ov st v). split; [assumption |].
    split; [| split].
    + intros k Hov. now rewrite Hk, Hov.
    + intros Hov. now rewrite Hk, Hov.
    + rewrite Hk. destruct (ov_channel_key ov) as [k |]; [| now left].
      intros ->. now right.
  - intros args. unfold handle_args_overrides. simpl.
    destruct (args_channel_key args) as [k |]; [| reflexivity].
    destruct (String.eqb k "") eqn:E; [| reflexivity].
    apply eqb_empty in E. now subst.
  - intros data env st' Hkw Hov H.
    destruct (envelope_body _ _ _ _ _ H)
      as (ov' & r' & Hkw' & Hr' & Hclear & _).
    assert (ov' = ov) by congruence. subst ov'.
    assert (r' = resolved_with kw ov st v) by congruence. subst r'.
    assert (Hempty : r_channel_key (resolved_with kw ov st v) = "")
      by now rewrite Hk, Hov.
    destruct (Hclear Hempty) as (Hd & He & _). auto.
  - intros data hash Hkw Hov Hfit.
    assert (Hempty : r_channel_key (resolved_with kw ov st v) = "")
      by now rewrite Hk, Hov.
    eexists. eexists. split.
    + now apply envelope_cleartext with (ov := ov)
                                        (r := resolved_with kw ov st v)
                                        (hash := hash).
    + simpl. auto.
  - intros data hash ct Hkw Hov Hne Hfit He.
    assert (Hkey : r_channel_key (resolved_with kw ov st v)
                   = configured_key kw st) by now rewrite Hk, Hov.
    eexists. eexists. split.
    + apply envelope_encrypted with (ov := ov)
                                    (r := resolved_with kw ov st v)
                                    (hash := hash) (ct := ct);
        try assumption.
      * now rewrite Hkey.
      * rewrite Hkey. exact He.
    + split; [reflexivity |]. split; [reflexivity |].
      unfold add_events. cbn [st_events set_message_id].
      rewrite Hkey. reflexivity.
Qed.

(** C3, as the code has it. The packet's [hop_limit] is the override's hop
    value when that is set and not zero, else the per-call [hop_limit],
    else 3; its [hop_start] is the override's hop value when that is set
    and not zero, else the per-call [hop_start], else 3.  The two fields
    are equal whenever the override is set and not zero, or the two
    per-call values agree. *)
Theorem hop_fields_resolution (data : Data) (kw : Kwargs) (st st' : State)
    (env : ServiceEnvelope) :
  envelope data kw st = (Ok env, st') ->
  exists ov,
    kw_overrides kw = Some ov /\
    mp_hop_limit (packet env) = resolved_hop ov (kw_hop_limit kw) /\
    mp_hop_start (packet env) = resolved_hop ov (kw_hop_start kw) /\
    ((exists n, ov_hop_limit ov = Some n /\ n <> 0) \/
     kwargs_get (kw_hop_start kw) 3 = kwargs_get (kw_hop_limit kw) 3 ->
     mp_hop_start (packet env) = mp_hop_limit (packet env)).
Proof.
  intros H. apply envelope_inv in H.
  destruct H as (ov & r & hash & Hov & _ & _ & _ & _ & Hbody).
  exists ov. split; [assumption |].
  assert (Hl : mp_hop_limit (packet env) = resolved_hop ov (kw_hop_limit kw)
            /\ mp_hop_start (packet env) = resolved_hop ov (kw_hop_start kw)).
  { destruct Hbody as [(_ & -> & _) | (_ & ct & _ & -> & _)]; simpl; auto. }
  destruct Hl as [Hl Hs]. split; [assumption |]. split; [assumption |].
  rewrite Hl, Hs. unfold resolved_hop.
  intros [(n & Hn & Hn0) | Heq].
  - rewrite Hn. now rewrite !or_int_nonzero.
  - now rewrite Heq.
Qed.

End AssemblyClaims.

Lemma body_variant_by_channel_key_witness :
  (exists env st',
     generate_mesh_packet_envelope Sample.generate_hash Sample.get_message_id
       Sample.encrypt_packet Sample.text
       (Sample.kwargs Sample.cleartext_overrides) Sample.state = (Ok env, st')
     /\ mp_decoded (packet env) = Some Sample.text
     /\ mp_encrypted (packet env) = None
     /\ st_events st' = []) /\
  (exists env st',
     generate_mesh_packet_envelope Sample.generate_hash Sample.get_message_id
       Sample.encrypt_packet Sample.text
       (Sample.kwargs Sample.no_overrides) Sample.state = (Ok env, st')
     /\ mp_encrypted (packet env) = Some "enc:hi"
     /\ mp_decoded (packet env) = None
     /\ exists p, st_events st' = [EvEncrypt "LongFast" "AQ==" p Sample.text]).
Proof.
  assert (Hfit : forall ov,
    ov_node_id ov = None -> ov_channel_preset ov = None ->
    ov_destination ov = None -> ov_hop_limit ov = None ->
    all_checks_pass Sample.generate_hash Sample.get_message_id
      (Sample.kwargs ov) ov
      (resolved_with (Sample.kwargs ov) ov Sample.state 2712847316)
      Sample.state 8).
  { intros ov Hn Hc Hd Hh.
    unfold all_checks_pass, checks_pass, resolved_hop, u32. simpl.
    rewrite Hd, Hh. simpl.
    repeat split; try reflexivity; discriminate. }
  split.
  - destruct (proj1 (body_variant_by_channel_key Sample.generate_hash
                       Sample.get_message_id Sample.encrypt_packet
                       Sample.text
                       (Sample.kwargs Sample.cleartext_overrides)
                       Sample.state)
                Sample.cleartext_overrides _ 8 eq_refl eq_refl
                (Hfit Sample.cleartext_overrides eq_refl eq_refl eq_refl
                   eq_refl)) as [Hclear _].
    destruct (Hclear eq_refl) as (env & Henv & Hd & He & Hev).
    exists env. eexists. split; [exact Henv |].
    split; [exact Hd |]. split; [exact He | exact Hev].
  - destruct (proj1 (body_variant_by_channel_key Sample.generate_hash
                       Sample.get_message_id Sample.encrypt_packet
                       Sample.text (Sample.kwargs Sample.no_overrides)
                       Sample.state)
                Sample.no_overrides _ 8 eq_refl eq_refl
                (Hfit Sample.no_overrides eq_refl eq_refl eq_refl eq_refl))
      as [_ Hkeyed].
    assert (Hne : r_channel_key
                    (resolved_with (Sample.kwargs Sample.no_overrides)
                       Sample.no_overrides Sample.state 2712847316) <> "")
      by discriminate.
    destruct (Hkeyed Hne "enc:hi" eq_refl) as (env & Henv & He & Hd).
    exists env. eexists. split; [exact Henv |].
    split; [exact He |]. split; [exact Hd |]. eexists. reflexivity.
Defined.

Lemma channel_key_three_valued_witness :
  (exists r,
     resolve (Sample.kwargs Sample.no_overrides) Sample.no_overrides
       Sample.state = Ok r
     /\ r_channel_key r = "AQ==") /\
  (exists r,
     resolve (Sample.kwargs Sample.cleartext_overrides)
       Sample.cleartext_overrides Sample.state = Ok r
     /\ r_channel_key r = "").
Proof.
  split.
  - destruct (proj1 (channel_key_three_valued Sample.generate_hash
                       Sample.get_message_id Sample.encrypt_packet
                       (Sample.kwargs Sample.no_overrides)
                       Sample.no_overrides Sample.state 2712847316
                       eq_refl eq_refl)) as (r & Hr & _ & Hunset & _).
    exists r. split; [exact Hr |]. exact (Hunset eq_refl).
  - destruct (proj1 (channel_key_three_valued Sample.generate_hash
                       Sample.get_message_id Sample.encrypt_packet
                       (Sample.kwargs Sample.cleartext_overrides)
                       Sample.cleartext_overrides Sample.state 2712847316
                       eq_refl eq_refl)) as (r & Hr & Hset & _).
    exists r. split; [exact Hr |]. exact (Hset "" eq_refl).
Defined.

Lemma hop_fields_resolution_witness :
  exists env st',
    generate_mesh_packet_envelope Sample.generate_hash Sample.get_message_id
      Sample.encrypt_packet Sample.text Sample.kwargs_hop_limit_5
      Sample.state = (Ok env, st')
    /\ mp_hop_limit (packet env) = 5 /\ mp_hop_start (packet env) = 3.
Proof.
  eexists. eexists. split; [vm_compute; reflexivity |].
  destruct (hop_fields_resolution Sample.generate_hash Sample.get_message_id
              Sample.encrypt_packet Sample.text Sample.kwargs_hop_limit_5
              Sample.state _ _ eq_refl) as (ov & Hov & Hl & Hs & _).
  vm_compute in Hov. injection Hov as <-. split; assumption.
Defined.

(** C3 as stated fails: a send that is given a per-call [hop_limit] of 5
    and nothing else about hops is assembled with [hop_limit] 5 and
    [hop_start] 3. *)
Lemma hop_start_differs_from_hop_limit :
  exists env st',
    generate_mesh_packet_envelope Sample.generate_hash Sample.get_message_id
      Sample.encrypt_packet Sample.text Sample.kwargs_hop_limit_5
      Sample.state = (Ok env, st')
    /\ mp_hop_limit (packet env) = 5 /\ mp_hop_start (packet env) = 3
    /\ mp_hop_start (packet env) <> mp_hop_limit (packet env).
Proof.
  eexists. eexists. split; [vm_compute; reflexivity |].
  simpl. repeat split. discriminate.
Qed.

(** ** Publishing *)

Lemma or_str_idem (a : option string) (b : string) :
  or_str a (or_str a b) = or_str a b.
Proof. destruct a as [[| c s] |]; reflexivity. Qed.

Lemma resolved_node_id_written_back (kw : Kwargs) (ov : Overrides)
    (st : State) :
  resolved_node_id kw ov (written_back kw ov st) = resolved_node_id kw ov st.
Proof.
  unfold written_back, resolved_node_id.
  destruct (use_config kw); simpl; apply or_str_idem.
Qed.

Lemma resolved_channel_name_written_back (kw : Kwargs) (ov : Overrides)
    (st : State) :
  resolved_channel_name kw ov (written_back kw ov st)
  = resolved_channel_name kw ov st.
Proof.
  unfold written_back, resolved_channel_name, resolved_node_id.
  destruct (use_config kw); simpl; apply or_str_idem.
Qed.

Lemma add_events_app (st : State) (l1 l2 : list Event) :
  add_events (add_events st l1) l2 = add_events st (l1 ++ l2).
Proof. unfold add_events. simpl. now rewrite app_assoc. Qed.

Section Publishing.

Variable generate_hash : string -> string -> result Z.
Variable get_message_id : Z -> Z.
Variable encrypt_packet : string -> string -> MeshPacket -> Data -> result bytes.
Variable SerializeToString : ServiceEnvelope -> bytes.
Variable client_publish : string -> bytes -> result unit.

Local Abbreviation envelope :=
  (generate_mesh_packet_envelope generate_hash get_message_id encrypt_packet).
Local Abbreviation assemble :=
  (generate_mesh_packet generate_hash get_message_id encrypt_packet
     SerializeToString).
Local Abbreviation publish := (publish_message client_publish).
Local Abbreviation send_text :=
  (send_text_message generate_hash get_message_id encrypt_packet
     SerializeToString client_publish).

Ltac run := unfold bind, ret, raise, lift, get, put, emit; simpl.

(** [publish_message], step by step. *)
Lemma publish_message_run (pf : Z -> Kwargs -> M bytes) (portnum : Z)
    (kw : Kwargs) (ov : Overrides) (st : State) :
  kw_overrides kw = Some ov ->
  publish pf portnum kw st =
    match pf portnum kw (written_back kw ov st) with
    | (Ok payload, st1) =>
        let topic := topic_of kw ov st in
        let st2 :=
          add_events st1 [EvTx portnum topic (logged_destination kw ov st);
                          EvPublish topic payload] in
        match client_publish topic payload with
        | Ok _ => (Ok tt, st2)
        | Raise e => (Ok tt, add_events st2 [EvError e])
        end
    | (Raise e, st1) => (Ok tt, add_events st1 [EvError e])
    end.
Proof.
  intros Hov. unfold publish_message, try_except. rewrite Hov.
  unfold topic_of, topic_format, written_back, logged_destination,
    root_topic, resolved_channel_name, resolved_node_id,
    configured_destination.
  destruct (use_config kw); run.
  - destruct (pf portnum kw _) as [[payload | e] st1]; [| reflexivity].
    destruct (client_publish _ payload) as [[] | e];
      unfold add_events; simpl; rewrite <- ?app_assoc; reflexivity.
  - destruct (pf portnum kw _) as [[payload | e] st1]; [| reflexivity].
    destruct (client_publish _ payload) as [[] | e];
      unfold add_events; simpl; rewrite <- ?app_assoc; reflexivity.
Qed.

Lemma publish_message_without_overrides (pf : Z -> Kwargs -> M bytes)
    (portnum : Z) (kw : Kwargs) (st : State) :
  kw_overrides kw = None ->
  publish pf portnum kw st
  = (Ok tt, add_events st [EvError TypeError_subscript]).
Proof.
  intros Hov. unfold publish_message, try_except. rewrite Hov. reflexivity.
Qed.

(** [publish_message] returns normally whatever happens inside. *)
Lemma publish_message_returns (pf : Z -> Kwargs -> M bytes) (portnum : Z)
    (kw : Kwargs) (st : State) :
  fst (publish pf portnum kw st) = Ok tt.
Proof.
  destruct (kw_overrides kw) as [ov |] eqn:Hov.
  - rewrite (publish_message_run _ _ _ _ _ Hov).
    destruct (pf portnum kw _) as [[payload | e] st1]; [| reflexivity].
    simpl. destruct (client_publish _ payload); reflexivity.
  - now rewrite publish_message_without_overrides.
Qed.

Lemma create_text_payload_run (message : string) (portnum : Z) (kw : Kwargs)
    (st : State) :
  create_text_payload generate_hash get_message_id encrypt_packet
    SerializeToString message portnum kw st
  = assemble (text_data message portnum kw) kw st.
Proof. reflexivity. Qed.

(** Assembly never touches the configuration or the client attributes. *)
Lemma assemble_frame (data : Data) (kw : Kwargs) (st : State) :
  st_config (snd (assemble data kw st)) = st_config st /\
  st_client (snd (assemble data kw st)) = st_client st.
Proof.
  unfold generate_mesh_packet, generate_mesh_packet_envelope.
  destruct (kw_overrides kw) as [ov |]; run; [| auto].
  destruct (resolve kw ov st) as [r | e]; [| auto].
  destruct (is_reserved (r_from_id r)); run; [auto |].
  repeat match goal with
         | |- context [match check_u32 ?v with _ => _ end] =>
             destruct (check_u32 v); simpl; [| now auto]
         | |- context [match generate_hash ?a ?b with _ => _ end] =>
             destruct (generate_hash a b); simpl; [| now auto]
         end.
  destruct (String.eqb (r_channel_key r) ""); run; [auto |].
  destruct (encrypt_packet _ _ _ _); auto.
Qed.

End Publishing.

(** ** Claims about the source identifier *)

Section IdentityClaims.

Variable generate_hash : string -> string -> result Z.
Variable get_message_id : Z -> Z.
Variable encrypt_packet : string -> string -> MeshPacket -> Data -> result bytes.
Variable SerializeToString : ServiceEnvelope -> bytes.
Variable client_publish : string -> bytes -> result unit.

Local Abbreviation envelope :=
  (generate_mesh_packet_envelope generate_hash get_message_id encrypt_packet).
Local Abbreviation assemble :=
  (generate_mesh_packet generate_hash get_message_id encrypt_packet
     SerializeToString).
Local Abbreviation send_text :=
  (send_text_message generate_hash get_message_id encrypt_packet
     SerializeToString client_publish).

Ltac run := unfold bind, ret, raise, lift, get, put, emit; simpl.

(** A failure of the identity stage leaves the state as it was. *)
Lemma assemble_reserved (data : Data) (kw : Kwargs) (ov : Overrides)
    (st : State) (v : Z) :
  kw_overrides kw = Some ov ->
  PyStr.startswith "!" (resolved_node_id kw ov st) = true ->
  PyStr.int16 (PyStr.remove_char "!" (resolved_node_id kw ov st)) = Some v ->
  In v reserved_ids ->
  assemble data kw st = (Raise (ValueError_reserved v), st).
Proof.
  intros Hov Hs Hi Hin. apply is_reserved_In in Hin.
  unfold generate_mesh_packet, generate_mesh_packet_envelope.
  rewrite Hov. run. rewrite (resolve_succeeds _ _ _ _ Hs Hi). simpl.
  rewrite Hin. reflexivity.
Qed.

Lemma assemble_without_sigil (data : Data) (kw : Kwargs) (ov : Overrides)
    (st : State) :
  kw_overrides kw = Some ov ->
  PyStr.startswith "!" (resolved_node_id kw ov st) = false ->
  assemble data kw st = (Raise ValueError_sigil, st).
Proof.
  intros Hov Hs.
  unfold generate_mesh_packet, generate_mesh_packet_envelope.
  rewrite Hov. run.
  assert (Hr : resolve kw ov st = Raise ValueError_sigil).
  { unfold resolve. unfold resolved_node_id in Hs.
    destruct (use_config kw); now rewrite Hs. }
  now rewrite Hr.
Qed.

(** A text send whose assembly fails logs the error and publishes
    nothing. *)
Lemma send_text_assembly_failure (message : string) (kw : Kwargs)
    (ov : Overrides) (st : State) (e : exn) :
  kw_overrides kw = Some ov ->
  (forall data, assemble data kw (written_back kw ov st)
                = (Raise e, written_back kw ov st)) ->
  send_text message kw st
  = (Ok tt, add_events (written_back kw ov st) [EvError e]).
Proof.
  intros Hov Hfail. unfold send_text_message.
  rewrite (publish_message_run _ _ _ _ _ _ Hov), create_text_payload_run.
  now rewrite Hfail.
Qed.

(** C4. A node identifier that carries the sigil and reads, in base 16, as
    one of 1, 2, 3, 4, 4294967295 makes assembly fail with the reserved-id
    [ValueError] (the spec's [InvalidNodeId]) before anything is touched:
    the state, message id counter included, is as before; and a text send
    with it publishes nothing, its only trace being the logged error. *)
Theorem reserved_source_rejected (data : Data) (kw : Kwargs) (ov : Overrides)
    (st : State) (v : Z) :
  kw_overrides kw = Some ov ->
  PyStr.startswith "!" (resolved_node_id kw ov st) = true ->
  PyStr.int16 (PyStr.remove_char "!" (resolved_node_id kw ov st)) = Some v ->
  In v reserved_ids ->
  InvalidNodeId (ValueError_reserved v) /\
  assemble data kw st = (Raise (ValueError_reserved v), st) /\
  forall message,
    send_text message kw st
    = (Ok tt,
       add_events (written_back kw ov st) [EvError (ValueError_reserved v)]).
Proof.
  intros Hov Hs Hi Hin. split; [exact I |].
  split; [now apply assemble_reserved with ov |].
  intros message. apply send_text_assembly_failure; [assumption |].
  intros data'. apply assemble_reserved with ov; try assumption;
    now rewrite resolved_node_id_written_back.
Qed.

(** C5. A node identifier that does not begin with '!' makes assembly fail
    with the sigil [ValueError] (the spec's [InvalidNodeId]), the state
    untouched; a text send with it publishes nothing, its only trace
    being the logged error. *)
Theorem missing_sigil_rejected (data : Data) (kw : Kwargs) (ov : Overrides)
    (st : State) :
  kw_overrides kw = Some ov ->
  PyStr.startswith "!" (resolved_node_id kw ov st) = false ->
  InvalidNodeId ValueError_sigil /\
  assemble data kw st = (Raise ValueError_sigil, st) /\
  forall message,
    send_text message kw st
    = (Ok tt, add_events (written_back kw ov st) [EvError ValueError_sigil]).
Proof.
  intros Hov Hs. split; [exact I |].
  split; [now apply assemble_without_sigil with ov |].
  intros message. apply send_text_assembly_failure; [assumption |].
  intros data'. apply assemble_without_sigil with ov; try assumption;
    now rewrite resolved_node_id_written_back.
Qed.

End IdentityClaims.

Lemma reserved_source_rejected_witness :
  generate_mesh_packet Sample.generate_hash Sample.get_message_id
    Sample.encrypt_packet Sample.SerializeToString Sample.text
    (Sample.kwargs (Sample.overrides_node_id "!FFFFFFFF")) Sample.state
  = (Raise (ValueError_reserved 4294967295), Sample.state).
Proof.
  apply (reserved_source_rejected Sample.generate_hash Sample.get_message_id
           Sample.encrypt_packet Sample.SerializeToString
           Sample.client_publish Sample.text
           (Sample.kwargs (Sample.overrides_node_id "!FFFFFFFF"))
           (Sample.overrides_node_id "!FFFFFFFF") Sample.state 4294967295).
  - reflexivity.
  - reflexivity.
  - reflexivity.
  - simpl. auto 10.
Defined.

Lemma missing_sigil_rejected_witness :
  generate_mesh_packet Sample.generate_hash Sample.get_message_id
    Sample.encrypt_packet Sample.SerializeToString Sample.text
    (Sample.kwargs (Sample.overrides_node_id "a1b2c3d4")) Sample.state
  = (Raise ValueError_sigil, Sample.state).
Proof.
  apply (missing_sigil_rejected Sample.generate_hash Sample.get_message_id
           Sample.encrypt_packet Sample.SerializeToString
           Sample.client_publish Sample.text
           (Sample.kwargs (Sample.overrides_node_id "a1b2c3d4"))
           (Sample.overrides_node_id "a1b2c3d4") Sample.state).
  - reflexivity.
  - reflexivity.
Defined.

(** ** Claims about the publish orchestrator *)

Section PublishClaims.

Variable generate_hash : string -> string -> result Z.
Variable get_message_id : Z -> Z.
Variable encrypt_packet : string -> string -> MeshPacket -> Data -> result bytes.
Variable SerializeToString : ServiceEnvelope -> bytes.
Variable client_publish : string -> bytes -> result unit.

Local Abbreviation envelope :=
  (generate_mesh_packet_envelope generate_hash get_message_id encrypt_packet).
Local Abbreviation publish := (publish_message client_publish).
Local Abbreviation send_text :=
  (send_text_message generate_hash get_message_id encrypt_packet
     SerializeToString client_publish).
Local Abbreviation send_all :=
  (send_messages generate_hash get_message_id encrypt_packet
     SerializeToString client_publish).

(** C6. [publish_message] returns normally on every input.  An error
    raised while the payload is built (identity or channel resolution,
    encryption) is logged and nothing is published; an error raised by
    the transport is logged after the attempt; and in a batch the
    remaining messages are sent from whatever state the first send left,
    failed or not. *)
Theorem publish_message_swallows_errors (pf : Z -> Kwargs -> M bytes)
    (portnum : Z) (kw : Kwargs) (st : State) :
  fst (publish pf portnum kw st) = Ok tt /\
  (forall ov e st1,
     kw_overrides kw = Some ov ->
     pf portnum kw (written_back kw ov st) = (Raise e, st1) ->
     publish pf portnum kw st = (Ok tt, add_events st1 [EvError e])) /\
  (forall ov payload e st1,
     kw_overrides kw = Some ov ->
     pf portnum kw (written_back kw ov st) = (Ok payload, st1) ->
     client_publish (topic_of kw ov st) payload = Raise e ->
     publish pf portnum kw st
     = (Ok tt,
        add_events st1
          [EvTx portnum (topic_of kw ov st) (logged_destination kw ov st);
           EvPublish (topic_of kw ov st) payload;
           EvError e])) /\
  (forall msg rest ov st0,
     send_all (msg :: rest) ov st0
     = send_all rest ov (snd (send_text msg (message_kwargs ov) st0))).
Proof.
  split; [apply publish_message_returns |].
  split; [| split].
  - intros ov e st1 Hov Hpf.
    now rewrite (publish_message_run _ _ _ _ _ _ Hov), Hpf.
  - intros ov payload e st1 Hov Hpf Hpub.
    rewrite (publish_message_run _ _ _ _ _ _ Hov), Hpf. simpl.
    rewrite Hpub. now rewrite add_events_app.
  - intros msg rest ov st0. simpl. unfold bind at 1.
    pose proof (publish_message_returns client_publish
                  (create_text_payload generate_hash get_message_id
                     encrypt_packet SerializeToString msg)
                  TEXT_MESSAGE_APP (message_kwargs ov) st0) as Hret.
    unfold send_text_message.
    destruct (publish _ _ _ st0) as [[[] | e] st1]; simpl in *;
      [reflexivity | discriminate].
Qed.

(** C7. Whenever a send reaches the transport, the topic it publishes
    under (and prints) is [{root_topic}/2/e/{channel}/{node id in lower
    case}], built from the resolved channel name and node identifier;
    for a text send these are the [channel_id] and [gateway_id] of the
    envelope that is published. *)
Theorem topic_is_formatted (pf : Z -> Kwargs -> M bytes) (portnum : Z)
    (kw : Kwargs) (ov : Overrides) (st st1 : State) (payload : bytes) :
  kw_overrides kw = Some ov ->
  pf portnum kw (written_back kw ov st) = (Ok payload, st1) ->
  let topic :=
    root_topic kw st ++ "/2/e/" ++ resolved_channel_name kw ov st ++ "/"
    ++ PyStr.lower (resolved_node_id kw ov st) in
  (exists tail,
     snd (publish pf portnum kw st)
     = add_events st1
         (EvTx portnum topic (logged_destination kw ov st)
          :: EvPublish topic payload :: tail)) /\
  (forall data env st2,
     envelope data kw (written_back kw ov st) = (Ok env, st2) ->
     topic = root_topic kw st ++ "/2/e/" ++ channel_id env ++ "/"
             ++ gateway_id env).
Proof.
  intros Hov Hpf topic. split.
  - rewrite (publish_message_run _ _ _ _ _ _ Hov), Hpf.
    fold topic. change (topic_of kw ov st) with topic. simpl.
    destruct (client_publish topic payload) as [[] | e]; simpl.
    + now exists [].
    + exists [EvError e]. now rewrite add_events_app.
  - intros data env st2 H. apply envelope_inv in H.
    destruct H as (ov' & r & hash & Hov' & Hr & _ & Hc & Hg & _).
    assert (ov' = ov) by congruence. subst ov'.
    destruct (resolve_Ok _ _ _ _ Hr) as (Hn & _ & _ & Hch & _ & Hgw & _).
    rewrite Hc, Hg, Hgw, Hch, Hn, resolved_channel_name_written_back,
      resolved_node_id_written_back.
    reflexivity.
Qed.

(** C9. With [use_config] set, a non-empty [node_id] or [channel_preset]
    override is stored in the shared configuration before the topic is
    built and stays there after the send, whether it succeeded or not,
    so a later send without that override resolves to the stored
    value. *)
Theorem override_written_back (pf : Z -> Kwargs -> M bytes) (portnum : Z)
    (kw : Kwargs) (ov : Overrides) (st : State) :
  use_config kw = true ->
  kw_overrides kw = Some ov ->
  (forall s, st_config (snd (pf portnum kw s)) = st_config s) ->
  let st' := snd (publish pf portnum kw st) in
  (forall n, ov_node_id ov = Some n -> n <> "" ->
     nodeinfo_id (st_config (written_back kw ov st)) = n /\
     nodeinfo_id (st_config st') = n /\
     forall kw2 ov2, use_config kw2 = true -> ov_node_id ov2 = None ->
       resolved_node_id kw2 ov2 st' = n) /\
  (forall c, ov_channel_preset ov = Some c -> c <> "" ->
     channel_preset (st_config (written_back kw ov st)) = c /\
     channel_preset (st_config st') = c /\
     forall kw2 ov2, use_config kw2 = true -> ov_channel_preset ov2 = None ->
       resolved_channel_name kw2 ov2 st' = c).
Proof.
  intros Huse Hov Hframe st'.
  assert (Hcfg : st_config st' = st_config (written_back kw ov st)).
  { unfold st'. rewrite (publish_message_run _ _ _ _ _ _ Hov).
    specialize (Hframe (written_back kw ov st)).
    destruct (pf portnum kw _) as [[payload | e] st1]; simpl in *;
      [| assumption].
    destruct (client_publish _ payload); simpl; assumption. }
  split.
  - intros n Hn Hne.
    assert (Hw : nodeinfo_id (st_config (written_back kw ov st)) = n).
    { unfold written_back, resolved_node_id. rewrite Huse, Hn. simpl.
      now apply or_str_nonempty. }
    split; [assumption |]. split; [now rewrite Hcfg |].
    intros kw2 ov2 Huse2 Hnone. unfold resolved_node_id.
    now rewrite Huse2, Hnone, Hcfg.
  - intros c Hc Hne.
    assert (Hw : channel_preset (st_config (written_back kw ov st)) = c).
    { unfold written_back, resolved_channel_name. rewrite Huse, Hc. simpl.
      now apply or_str_nonempty. }
    split; [assumption |]. split; [now rewrite Hcfg |].
    intros kw2 ov2 Huse2 Hnone. unfold resolved_channel_name.
    now rewrite Huse2, Hnone, Hcfg.
Qed.

End PublishClaims.

Lemma publish_message_swallows_errors_witness :
  fst (send_text_message Sample.generate_hash Sample.get_message_id
         Sample.failing_encrypt Sample.SerializeToString
         Sample.client_publish "hi" (Sample.kwargs Sample.no_overrides)
         Sample.state) = Ok tt.
Proof.
  apply (proj1 (publish_message_swallows_errors Sample.generate_hash
                  Sample.get_message_id Sample.failing_encrypt
                  Sample.SerializeToString Sample.client_publish
                  (create_text_payload Sample.generate_hash
                     Sample.get_message_id Sample.failing_encrypt
                     Sample.SerializeToString "hi")
                  TEXT_MESSAGE_APP (Sample.kwargs Sample.no_overrides)
                  Sample.state)).
Defined.

Lemma topic_is_formatted_witness :
  exists payload st1 tail,
    snd (send_text_message Sample.generate_hash Sample.get_message_id
           Sample.encrypt_packet Sample.SerializeToString
           Sample.client_publish "hi"
           (Sample.kwargs Sample.cleartext_overrides) Sample.state)
    = add_events st1
        (EvTx 1 "msh/US/2/e/LongFast/!a1b2c3d4" 4294967295
         :: EvPublish "msh/US/2/e/LongFast/!a1b2c3d4" payload :: tail).
Proof.
  destruct (topic_is_formatted Sample.generate_hash Sample.get_message_id
              Sample.encrypt_packet Sample.client_publish
              (create_text_payload Sample.generate_hash
                 Sample.get_message_id Sample.encrypt_packet
                 Sample.SerializeToString "hi")
              TEXT_MESSAGE_APP (Sample.kwargs Sample.cleartext_overrides)
              Sample.cleartext_overrides Sample.state _ _ eq_refl eq_refl)
    as [[tail H] _].
  eexists. eexists. exists tail. exact H.
Defined.

Lemma override_written_back_witness :
  nodeinfo_id
    (st_config
       (snd (send_text_message Sample.generate_hash Sample.get_message_id
               Sample.encrypt_packet Sample.SerializeToString
               Sample.client_publish "hi"
               (Sample.kwargs (Sample.overrides_node_id "!0000beef"))
               Sample.state)))
  = "!0000beef".
Proof.
  apply (proj1 (override_written_back Sample.client_publish
                  (create_text_payload Sample.generate_hash
                     Sample.get_message_id Sample.encrypt_packet
                     Sample.SerializeToString "hi")
                  TEXT_MESSAGE_APP
                  (Sample.kwargs (Sample.overrides_node_id "!0000beef"))
                  (Sample.overrides_node_id "!0000beef") Sample.state
                  eq_refl eq_refl
                  (fun s => proj1 (assemble_frame Sample.generate_hash
                                     Sample.get_message_id
                                     Sample.encrypt_packet
                                     Sample.SerializeToString _ _ s)))
           "!0000beef" eq_refl).
  discriminate.
Defined.

(** ** Claims about the destination and the identifier's digits *)

Section AcceptanceClaims.

Variable generate_hash : string -> string -> result Z.
Variable get_message_id : Z -> Z.
Variable encrypt_packet : string -> string -> MeshPacket -> Data -> result bytes.

Local Abbreviation envelope :=
  (generate_mesh_packet_envelope generate_hash get_message_id encrypt_packet).
Local Abbreviation packet_before_body := (packet_at_body get_message_id).

(** Assembly succeeds once every check passes and, under a key, the
    encryption does. *)
Lemma envelope_succeeds (data : Data) (kw : Kwargs) (ov : Overrides)
    (r : Resolved) (st : State) (hash : Z) :
  kw_overrides kw = Some ov ->
  resolve kw ov st = Ok r ->
  all_checks_pass generate_hash get_message_id kw ov r st hash ->
  (r_channel_key r = "" \/
   exists ct, encrypt_packet (r_channel_id r) (r_channel_key r)
                (packet_before_body kw ov r st hash) data = Ok ct) ->
  exists env st',
    envelope data kw st = (Ok env, st') /\
    mp_from (packet env) = r_from_id r /\
    mp_to (packet env) = r_destination r.
Proof.
  intros Hov Hr Hfit Hbody.
  destruct (string_dec (r_channel_key r) "") as [Hk | Hk].
  - eexists. eexists. split.
    + now apply envelope_cleartext with (ov := ov) (r := r) (hash := hash).
    + split; reflexivity.
  - destruct Hbody as [Hk' | [ct He]]; [contradiction |].
    eexists. eexists. split.
    + now apply envelope_encrypted with (ov := ov) (r := r) (hash := hash)
                                        (ct := ct).
    + split; reflexivity.
Qed.

Ltac run := unfold bind, ret, raise, lift, get, put, emit; simpl.

(** A reserved source stops assembly before anything is done. *)
Lemma envelope_reserved_source (data : Data) (kw : Kwargs) (ov : Overrides)
    (st : State) (v : Z) :
  kw_overrides kw = Some ov ->
  PyStr.startswith "!" (resolved_node_id kw ov st) = true ->
  PyStr.int16 (PyStr.remove_char "!" (resolved_node_id kw ov st)) = Some v ->
  In v reserved_ids ->
  envelope data kw st = (Raise (ValueError_reserved v), st).
Proof.
  intros Hov Hs Hi Hin. apply is_reserved_In in Hin.
  unfold generate_mesh_packet_envelope.
  rewrite Hov. run. rewrite (resolve_succeeds _ _ _ _ Hs Hi). simpl.
  rewrite Hin. reflexivity.
Qed.

(** The one test on the destination is the range of the [to] field. *)
Lemma envelope_destination_range (data : Data) (kw : Kwargs)
    (ov : Overrides) (r : Resolved) (st : State) (hash : Z) :
  kw_overrides kw = Some ov ->
  resolve kw ov st = Ok r ->
  checks_pass generate_hash get_message_id kw ov r st hash ->
  ~ u32 (r_destination r) ->
  envelope data kw st
  = (Raise (ValueError_range (r_destination r)),
     set_message_id st (get_message_id (st_message_id st))).
Proof.
  intros Hov Hr (Hres & Hid & Hfrom & _) Hrange.
  unfold generate_mesh_packet_envelope. rewrite Hov. run. rewrite Hr, Hres.
  run. rewrite (check_u32_u32 _ Hid), (check_u32_u32 _ Hfrom).
  unfold check_u32 at 1. destruct (u32b (r_destination r)) eqn:Eb;
    [| reflexivity].
  exfalso. apply Hrange. unfold u32b in Eb. apply andb_true_iff in Eb.
  destruct Eb as [Hlo Hhi]. apply Z.leb_le in Hlo. apply Z.ltb_lt in Hhi.
  unfold u32. lia.
Qed.

Lemma reserved_ids_u32 (d : Z) : In d reserved_ids -> u32 d.
Proof.
  unfold u32. simpl.
  intros [<- | [<- | [<- | [<- | [<- | []]]]]]; lia.
Qed.

(** C8. The reserved list is consulted for the source only.  For the
    destination of a send whose other checks pass, the one test is that
    it fits the 32-bit [to] field: every destination that fits is
    accepted and becomes the packet's [to], every other one fails on the
    field's range.  So each reserved value, the broadcast address
    4294967295 included, is accepted as a destination, while as a source
    each of them stops assembly with the reserved-id error. *)
Theorem broadcast_destination_accepted (data : Data) (kw : Kwargs)
    (ov : Overrides) (r : Resolved) (st : State) (hash : Z) :
  kw_overrides kw = Some ov ->
  resolve kw ov st = Ok r ->
  checks_pass generate_hash get_message_id kw ov r st hash ->
  (r_channel_key r = "" \/
   exists ct, encrypt_packet (r_channel_id r) (r_channel_key r)
                (packet_before_body kw ov r st hash) data = Ok ct) ->
  (u32 (r_destination r) ->
     exists env st',
       envelope data kw st = (Ok env, st') /\
       mp_to (packet env) = r_destination r) /\
  (~ u32 (r_destination r) ->
     envelope data kw st
     = (Raise (ValueError_range (r_destination r)),
        set_message_id st (get_message_id (st_message_id st)))) /\
  (In (r_destination r) reserved_ids ->
     exists env st',
       envelope data kw st = (Ok env, st') /\
       mp_to (packet env) = r_destination r) /\
  (r_destination r = 4294967295 ->
     In 4294967295 reserved_ids /\
     exists env st',
       envelope data kw st = (Ok env, st') /\
       mp_to (packet env) = 4294967295) /\
  (forall data' kw' ov' s v,
     kw_overrides kw' = Some ov' ->
     PyStr.startswith "!" (resolved_node_id kw' ov' s) = true ->
     PyStr.int16 (PyStr.remove_char "!" (resolved_node_id kw' ov' s))
       = Some v ->
     In v reserved_ids ->
     envelope data' kw' s = (Raise (ValueError_reserved v), s)).
Proof.
  intros Hov Hr Hchecks Hbody.
  assert (Hfits : u32 (r_destination r) ->
            exists env st',
              envelope data kw st = (Ok env, st') /\
              mp_to (packet env) = r_destination r).
  { intros Hto.
    destruct (envelope_succeeds data kw ov r st hash Hov Hr) as
      (env & st' & Henv & _ & Hmp); [| assumption |].
    - split; assumption.
    - exists env, st'. split; assumption. }
  split; [exact Hfits |].
  split; [now apply envelope_destination_range with ov hash |].
  split; [intros Hin; apply Hfits; now apply reserved_ids_u32 |].
  split.
  - intros Hdest.
    assert (Hin : In 4294967295 reserved_ids) by (simpl; auto 10).
    split; [exact Hin |].
    rewrite <- Hdest. apply Hfits. rewrite Hdest.
    now apply reserved_ids_u32.
  - intros data' kw' ov' s v. apply envelope_reserved_source.
Qed.

(** C10, as the code has it. The only test on the identifier's text is
    that it begins with '!'; every '!' is then dropped and the rest is
    read in base 16.  So when what remains is a plain hexadecimal numeral
    whose value is not reserved and fits 32 bits, and the other stages
    (message id, destination, channel hash, hop values, encryption) do not
    fail, assembly succeeds and [from] is that value. *)
Theorem sigil_only_validation (data : Data) (kw : Kwargs) (ov : Overrides)
    (st : State) (hash : Z) :
  let node_id := resolved_node_id kw ov st in
  let digits := PyStr.remove_char "!" node_id in
  let r := resolved_with kw ov st (hex_value digits) in
  kw_overrides kw = Some ov ->
  PyStr.startswith "!" node_id = true ->
  is_hex_numeral digits = true ->
  ~ In (hex_value digits) reserved_ids ->
  hex_value digits < 2 ^ 32 ->
  u32 (get_message_id (st_message_id st)) ->
  u32 (r_destination r) ->
  generate_hash (r_channel_id r) (r_channel_key r) = Ok hash ->
  u32 hash ->
  u32 (resolved_hop ov (kw_hop_limit kw)) ->
  u32 (resolved_hop ov (kw_hop_start kw)) ->
  (r_channel_key r = "" \/
   exists ct, encrypt_packet (r_channel_id r) (r_channel_key r)
                (packet_before_body kw ov r st hash) data = Ok ct) ->
  exists env st',
    envelope data kw st = (Ok env, st') /\
    mp_from (packet env) = hex_value digits.
Proof.
  intros node_id digits r Hov Hs Hhex Hres Hlt Hid Hto Hh Hch Hhl Hhs Hbody.
  assert (Hr : resolve kw ov st = Ok r).
  { apply resolve_succeeds; [assumption |]. now apply int16_hex_numeral. }
  destruct (envelope_succeeds data kw ov r st hash Hov Hr) as
    (env & st' & Henv & Hfrom & _); [| assumption |].
  - split; [| assumption].
    refine (conj _ (conj Hid (conj _ (conj Hh (conj Hch (conj Hhl Hhs)))))).
    + destruct (is_reserved (r_from_id r)) eqn:E; [| reflexivity].
      apply is_reserved_In in E. contradiction.
    + split; [| assumption]. apply hex_value_from_nonneg. lia.
  - exists env, st'. split; assumption.
Qed.

End AcceptanceClaims.

Lemma broadcast_destination_accepted_witness :
  (exists env st',
     generate_mesh_packet_envelope Sample.generate_hash Sample.get_message_id
       Sample.encrypt_packet Sample.text
       (Sample.kwargs Sample.cleartext_overrides) Sample.state = (Ok env, st')
     /\ mp_to (packet env) = 4294967295) /\
  (exists env st',
     generate_mesh_packet_envelope Sample.generate_hash Sample.get_message_id
       Sample.encrypt_packet Sample.text
       (Sample.kwargs
          {| ov_node_id := None; ov_channel_preset := None;
             ov_channel_key := Some ""; ov_destination := Some 1;
             ov_hop_limit := None; ov_priority := None |})
       Sample.state = (Ok env, st')
     /\ mp_to (packet env) = 1).
Proof.
  split.
  - apply (broadcast_destination_accepted Sample.generate_hash
             Sample.get_message_id Sample.encrypt_packet Sample.text
             (Sample.kwargs Sample.cleartext_overrides)
             Sample.cleartext_overrides
             (resolved_with (Sample.kwargs Sample.cleartext_overrides)
                Sample.cleartext_overrides Sample.state 2712847316)
             Sample.state 8).
    + reflexivity.
    + reflexivity.
    + unfold checks_pass, u32. simpl.
      repeat split; try reflexivity; discriminate.
    + left. reflexivity.
    + reflexivity.
  - set (ov := {| ov_node_id := None; ov_channel_preset := None;
                  ov_channel_key := Some ""; ov_destination := Some 1;
                  ov_hop_limit := None; ov_priority := None |}).
    destruct (broadcast_destination_accepted Sample.generate_hash
                Sample.get_message_id Sample.encrypt_packet Sample.text
                (Sample.kwargs ov) ov
                (resolved_with (Sample.kwargs ov) ov Sample.state 2712847316)
                Sample.state 8) as (_ & _ & Hres & _).
    + reflexivity.
    + reflexivity.
    + unfold checks_pass, u32. simpl.
      repeat split; try reflexivity; discriminate.
    + left. reflexivity.
    + apply Hres. simpl. auto.
Defined.

Lemma sigil_only_validation_witness :
  exists env st',
    generate_mesh_packet_envelope Sample.generate_hash Sample.get_message_id
      Sample.encrypt_packet Sample.text
      (Sample.kwargs (Sample.overrides_node_id "!a1!b2")) Sample.state
    = (Ok env, st')
    /\ mp_from (packet env) = 41394.
Proof.
  apply (sigil_only_validation Sample.generate_hash Sample.get_message_id
           Sample.encrypt_packet Sample.text
           (Sample.kwargs (Sample.overrides_node_id "!a1!b2"))
           (Sample.overrides_node_id "!a1!b2") Sample.state 8).
  - reflexivity.
  - reflexivity.
  - reflexivity.
  - simpl. intros [H | [H | [H | [H | [H | []]]]]]; discriminate H.
  - reflexivity.
  - unfold u32. simpl. split; [discriminate | reflexivity].
  - unfold u32. simpl. split; [discriminate | reflexivity].
  - reflexivity.
  - unfold u32. split; [discriminate | reflexivity].
  - unfold u32. simpl. split; [discriminate | reflexivity].
  - unfold u32. simpl. split; [discriminate | reflexivity].
  - left. reflexivity.
Defined.

(** C10 as stated fails: ["!1"] begins with '!' and what is left of it,
    ["1"], is a hexadecimal numeral, yet assembly raises, 1 being a
    reserved identifier. *)
Lemma reserved_hex_identifier_fails :
  PyStr.startswith "!" "!1" = true /\
  is_hex_numeral (PyStr.remove_char "!" "!1") = true /\
  generate_mesh_packet_envelope Sample.generate_hash Sample.get_message_id
    Sample.encrypt_packet Sample.text
    (Sample.kwargs (Sample.overrides_node_id "!1")) Sample.state
  = (Raise (ValueError_reserved 1), Sample.state).
Proof. repeat split. Qed.


(** * Further properties *)

(** ** Assembly: what a run leaves behind *)

Section AssemblyRuns.

Variable generate_hash : string -> string -> result Z.
Variable get_message_id : Z -> Z.
Variable encrypt_packet : string -> string -> MeshPacket -> Data -> result bytes.

Local Abbreviation envelope :=
  (generate_mesh_packet_envelope generate_hash get_message_id encrypt_packet).
Local Abbreviation packet_before_body := (packet_at_body get_message_id).

Ltac run := unfold bind, ret, raise, lift, get, put, emit; simpl.

(** The state after a run that passed the identity stage. *)
Lemma envelope_message_id (data : Data) (kw : Kwargs) (ov : Overrides)
    (r : Resolved) (st : State) :
  kw_overrides kw = Some ov ->
  resolve kw ov st = Ok r ->
  is_reserved (r_from_id r) = false ->
  st_message_id (snd (envelope data kw st))
    = get_message_id (st_message_id st) /\
  st_config (snd (envelope data kw st)) = st_config st /\
  st_client (snd (envelope data kw st)) = st_client st /\
  forall env, fst (envelope data kw st) = Ok env ->
    mp_id (packet env) = get_message_id (st_message_id st).
Proof.
  intros Hov Hr Hres. unfold generate_mesh_packet_envelope.
  rewrite Hov. run. rewrite Hr, Hres. run.
  destruct (check_u32 (get_message_id _)) as [id |] eqn:Hid; simpl;
    [| repeat split; discriminate].
  apply check_u32_Ok in Hid. destruct Hid as [-> _].
  repeat match goal with
         | |- context [match check_u32 ?v with _ => _ end] =>
             destruct (check_u32 v); simpl; [| repeat split; discriminate]
         | |- context [match generate_hash ?a ?b with _ => _ end] =>
             destruct (generate_hash a b); simpl;
             [| repeat split; discriminate]
         end.
  destruct (String.eqb (r_channel_key r) ""); run.
  - repeat split. intros env H. now inversion H.
  - destruct (encrypt_packet _ _ _ _); simpl; repeat split;
      try discriminate.
    intros env H. now inversion H.
Qed.

(** Once the identity stage is passed the global message id is advanced,
    exactly once, whatever happens afterwards; the configuration and the
    client attributes are never written; a packet that is assembled
    carries the new id. *)
Theorem message_id_consumed (data : Data) (kw : Kwargs) (ov : Overrides)
    (r : Resolved) (st : State) :
  kw_overrides kw = Some ov ->
  resolve kw ov st = Ok r ->
  is_reserved (r_from_id r) = false ->
  st_message_id (snd (envelope data kw st))
    = get_message_id (st_message_id st) /\
  st_config (snd (envelope data kw st)) = st_config st /\
  st_client (snd (envelope data kw st)) = st_client st /\
  forall env, fst (envelope data kw st) = Ok env ->
    mp_id (packet env) = get_message_id (st_message_id st).
Proof. apply envelope_message_id. Qed.

(** Every packet that is assembled has a source that is not reserved and
    numeric fields that fit 32 bits.  The channel number written at line
    122 is the hash of the channel name and key the envelope was resolved
    to: a cleartext packet carries it, and under a key it is the channel
    of the packet handed to the encryption function, as the record of
    that call shows. *)
Theorem assembled_packet_wellformed (data : Data) (kw : Kwargs)
    (st st' : State) (env : ServiceEnvelope) :
  envelope data kw st = (Ok env, st') ->
  ~ In (mp_from (packet env)) reserved_ids /\
  u32 (mp_id (packet env)) /\ u32 (mp_from (packet env)) /\
  u32 (mp_to (packet env)) /\ u32 (mp_channel (packet env)) /\
  u32 (mp_hop_limit (packet env)) /\ u32 (mp_hop_start (packet env)) /\
  exists ov r hash,
    kw_overrides kw = Some ov /\ resolve kw ov st = Ok r /\
    generate_hash (channel_id env) (r_channel_key r) = Ok hash /\
    (r_channel_key r = "" ->
       mp_decoded (packet env) = Some data /\
       mp_channel (packet env) = hash) /\
    (r_channel_key r <> "" ->
       exists p,
         mp_channel p = hash /\
         st_events st' =
           (st_events st
            ++ [EvEncrypt (channel_id env) (r_channel_key r) p data])%list).
Proof.
  intros H. apply envelope_inv in H.
  destruct H as (ov & r & hash & Hov & Hr & Hfit & Hc & _ & Hbody).
  destruct Hfit as ((Hres & Hid & Hfrom & Hh & Hch & Hhl & Hhs) & Hto).
  assert (Hp : packet env = set_decoded (packet_before_body kw ov r st hash) data
               \/ exists ct, packet env
                    = set_encrypted (packet_before_body kw ov r st hash) ct).
  { destruct Hbody as [(_ & Hp & _) | (_ & ct & _ & Hp & _)]; eauto. }
  assert (Hfields :
    mp_id (packet env) = get_message_id (st_message_id st) /\
    mp_from (packet env) = r_from_id r /\
    mp_to (packet env) = r_destination r /\
    mp_channel (packet env) = hash /\
    mp_hop_limit (packet env) = resolved_hop ov (kw_hop_limit kw) /\
    mp_hop_start (packet env) = resolved_hop ov (kw_hop_start kw)).
  { destruct Hp as [-> | [ct ->]]; simpl; auto 10. }
  destruct Hfields as (Eid & Efrom & Eto & Ech & Ehl & Ehs).
  rewrite Eid, Efrom, Eto, Ech, Ehl, Ehs.
  split.
  { intros Hin. apply is_reserved_In in Hin. congruence. }
  repeat (split; [assumption |]).
  exists ov, r, hash. rewrite Hc.
  split; [assumption |]. split; [assumption |]. split; [assumption |].
  destruct Hbody as [(Hk & Hpk & _) | (Hk & ct & _ & _ & Hst)].
  - split; [| congruence]. intros _. rewrite Hpk. simpl. auto.
  - split; [congruence |]. intros _.
    exists (packet_before_body kw ov r st hash).
    split; [reflexivity |]. rewrite Hst. reflexivity.
Qed.

(** The destination of a packet: the override when it is set and not
    zero; else the per-call [to] when there is one; else the configured
    default.  An override of 0 is passed over like an absent one. *)
Theorem destination_precedence (data : Data) (kw : Kwargs) (st st' : State)
    (env : ServiceEnvelope) :
  envelope data kw st = (Ok env, st') ->
  exists ov,
    kw_overrides kw = Some ov /\
    (forall d, ov_destination ov = Some d -> d <> 0 ->
       mp_to (packet env) = d) /\
    (ov_destination ov = None \/ ov_destination ov = Some 0 ->
     (forall t, kw_to kw = Some t -> mp_to (packet env) = t) /\
     (kw_to kw = None ->
        mp_to (packet env) = configured_destination kw st)).
Proof.
  intros H. apply envelope_inv in H.
  destruct H as (ov & r & hash & Hov & Hr & _ & _ & _ & Hbody).
  exists ov. split; [assumption |].
  assert (Hto : mp_to (packet env) = r_destination r).
  { destruct Hbody as [(_ & -> & _) | (_ & ct & _ & -> & _)]; reflexivity. }
  destruct (resolve_Ok _ _ _ _ Hr) as (_ & _ & _ & _ & _ & _ & Hd).
  rewrite Hto, Hd. split.
  - intros d Hsome Hne. rewrite Hsome. now apply or_int_nonzero.
  - intros Hnone.
    assert (Hor : forall b, or_int (ov_destination ov) b = b).
    { intros b. destruct Hnone as [-> | ->]; reflexivity. }
    rewrite Hor. split.
    + intros t Ht. now rewrite Ht.
    + intros Ht. now rewrite Ht.
Qed.

(** A source number that is not reserved but does not fit the 32-bit
    [from] field (negative, or 2^32 and above) stops assembly at the
    assignment, after the message id has been taken. *)
Theorem oversized_source_rejected (data : Data) (kw : Kwargs)
    (ov : Overrides) (st : State) (v : Z) :
  kw_overrides kw = Some ov ->
  PyStr.startswith "!" (resolved_node_id kw ov st) = true ->
  PyStr.int16 (PyStr.remove_char "!" (resolved_node_id kw ov st)) = Some v ->
  ~ In v reserved_ids ->
  ~ u32 v ->
  u32 (get_message_id (st_message_id st)) ->
  envelope data kw st
  = (Raise (ValueError_range v),
     set_message_id st (get_message_id (st_message_id st))).
Proof.
  intros Hov Hs Hi Hres Hrange Hid.
  unfold generate_mesh_packet_envelope. rewrite Hov. run.
  rewrite (resolve_succeeds _ _ _ _ Hs Hi). simpl.
  destruct (is_reserved v) eqn:E.
  { apply is_reserved_In in E. contradiction. }
  run. rewrite (check_u32_u32 _ Hid).
  unfold check_u32 at 1. destruct (u32b v) eqn:Eb; [| reflexivity].
  exfalso. apply Hrange. unfold u32b in Eb. apply andb_true_iff in Eb.
  destruct Eb as [Hlo Hhi]. apply Z.leb_le in Hlo. apply Z.ltb_lt in Hhi.
  unfold u32. lia.
Qed.

(** When the encryption fails, assembly fails with the same error: the
    message id is spent, the call is on record, and there is no
    envelope. *)
Theorem encryption_failure_aborts (data : Data) (kw : Kwargs)
    (ov : Overrides) (r : Resolved) (st : State) (hash : Z) (e : exn) :
  kw_overrides kw = Some ov ->
  resolve kw ov st = Ok r ->
  all_checks_pass generate_hash get_message_id kw ov r st hash ->
  r_channel_key r <> "" ->
  encrypt_packet (r_channel_id r) (r_channel_key r)
    (packet_before_body kw ov r st hash) data = Raise e ->
  envelope data kw st
  = (Raise e,
     add_events (set_message_id st (get_message_id (st_message_id st)))
       [EvEncrypt (r_channel_id r) (r_channel_key r)
          (packet_before_body kw ov r st hash) data]).
Proof.
  intros Hov Hr ((Hres & Hid & Hfrom & Hh & Hch & Hhl & Hhs) & Hto) Hk He.
  unfold generate_mesh_packet_envelope. rewrite Hov. run. rewrite Hr, Hres.
  run. unfold resolved_hop in Hhl, Hhs.
  rewrite (check_u32_u32 _ Hid), (check_u32_u32 _ Hfrom),
    (check_u32_u32 _ Hto), Hh, (check_u32_u32 _ Hch),
    (check_u32_u32 _ Hhl), (check_u32_u32 _ Hhs).
  apply String.eqb_neq in Hk. rewrite Hk. run.
  unfold packet_at_body, resolved_hop in He. rewrite He.
  reflexivity.
Qed.

End AssemblyRuns.

(** ** The literal of the node identifier *)

Lemma skip_spaces_literal (s : string) :
  all_chars literal_char (PyStr.skip_spaces s) = true ->
  all_chars literal_char s = true.
Proof.
  induction s as [| a s IH]; simpl; [trivial |].
  destruct (PyStr.is_space a) eqn:Ha; [| trivial].
  intros H. unfold literal_char at 1. rewrite Ha. simpl. auto.
Qed.

Lemma strip_sign_literal (s : string) :
  all_chars literal_char (snd (PyStr.strip_sign s)) = true ->
  all_chars literal_char s = true.
Proof.
  destruct s as [| a s]; [trivial |].
  destruct a as [[] [] [] [] [] [] [] []]; simpl; trivial.
Qed.

Lemma strip_0x_literal (s : string) :
  all_chars literal_char (PyStr.strip_0x s) = true ->
  all_chars literal_char s = true.
Proof.
  destruct s as [| a [| c s]]; [trivial | |].
  - destruct a as [[] [] [] [] [] [] [] []]; trivial.
  - destruct a as [[] [] [] [] [] [] [] []]; trivial.
    unfold PyStr.strip_0x.
    destruct (Ascii.eqb c "x" || Ascii.eqb c "X") eqn:Hc; [| trivial].
    assert (Hlit : literal_char c = true).
    { unfold literal_char. apply orb_true_iff in Hc.
      destruct Hc as [-> | ->]; now rewrite ?orb_true_r. }
    intros H. change (literal_char "0" && (literal_char c
                        && all_chars literal_char s) = true).
    rewrite Hlit. simpl.
    destruct s as [| u s']; [trivial |].
    destruct u as [[] [] [] [] [] [] [] []]; trivial.
Qed.

Lemma scan_digits_literal (s : string) : forall b acc v rest,
  PyStr.scan_digits b acc s = Some (v, rest) ->
  all_chars literal_char rest = true ->
  all_chars literal_char s = true.
Proof.
  induction s as [| a s IH]; intros b acc v rest H Hrest;
    [reflexivity |].
  cbn [PyStr.scan_digits] in H. cbn [all_chars].
  destruct (Ascii.eqb a "_") eqn:Hus.
  - destruct b; [discriminate |].
    unfold literal_char at 1. rewrite Hus, ?orb_true_r. simpl.
    now apply IH with true acc v rest.
  - destruct (PyStr.hex_digit a) as [d |] eqn:Hd.
    + unfold literal_char at 1. rewrite Hd, ?orb_true_r. simpl.
      now apply IH with false (16 * acc + d) v rest.
    + destruct b; [discriminate |]. injection H as _ <-.
      exact Hrest.
Qed.

Lemma all_spaces_literal (s : string) :
  PyStr.all_spaces s = true -> all_chars literal_char s = true.
Proof.
  induction s as [| a s IH]; simpl; [trivial |].
  intros H. apply andb_true_iff in H. destruct H as [Ha Hs].
  unfold literal_char at 1. rewrite Ha. simpl. auto.
Qed.

(** A string that [int(s, 16)] accepts is made of literal characters. *)
Lemma int16_literal (s : string) (v : Z) :
  PyStr.int16 s = Some v -> all_chars literal_char s = true.
Proof.
  unfold PyStr.int16. intros H. apply skip_spaces_literal.
  apply strip_sign_literal.
  destruct (PyStr.strip_sign (PyStr.skip_spaces s)) as [neg s1]. simpl.
  apply strip_0x_literal.
  destruct (PyStr.starts_with_digit _); [| discriminate].
  destruct (PyStr.scan_digits false 0 _) as [[w rest] |] eqn:Hscan;
    [| discriminate].
  destruct (PyStr.all_spaces rest) eqn:Hsp; [| discriminate].
  apply scan_digits_literal with false 0 w rest; [assumption |].
  now apply all_spaces_literal.
Qed.

Lemma remove_sigil_literal (s : string) :
  all_chars literal_char (PyStr.remove_char "!" s) = true ->
  all_chars identifier_char s = true.
Proof.
  induction s as [| a s IH]; simpl; [trivial |].
  unfold identifier_char at 1.
  destruct (Ascii.eqb a "!") eqn:Ha.
  - rewrite orb_true_r. simpl. exact IH.
  - simpl. intros H. apply andb_true_iff in H. destruct H as [-> Hs].
    simpl. auto.
Qed.

Section LiteralFailures.

Variable generate_hash : string -> string -> result Z.
Variable get_message_id : Z -> Z.
Variable encrypt_packet : string -> string -> MeshPacket -> Data -> result bytes.
Variable SerializeToString : ServiceEnvelope -> bytes.
Variable client_publish : string -> bytes -> result unit.

Local Abbreviation assemble :=
  (generate_mesh_packet generate_hash get_message_id encrypt_packet
     SerializeToString).
Local Abbreviation send_text :=
  (send_text_message generate_hash get_message_id encrypt_packet
     SerializeToString client_publish).

Ltac run := unfold bind, ret, raise, lift, get, put, emit; simpl.

Lemma assemble_malformed (data : Data) (kw : Kwargs) (ov : Overrides)
    (st : State) :
  kw_overrides kw = Some ov ->
  PyStr.startswith "!" (resolved_node_id kw ov st) = true ->
  PyStr.int16 (PyStr.remove_char "!" (resolved_node_id kw ov st)) = None ->
  assemble data kw st
  = (Raise (ValueError_literal
              (PyStr.remove_char "!" (resolved_node_id kw ov st))), st).
Proof.
  intros Hov Hs Hi.
  unfold generate_mesh_packet, generate_mesh_packet_envelope.
  rewrite Hov. run.
  assert (Hr : resolve kw ov st
               = Raise (ValueError_literal
                          (PyStr.remove_char "!" (resolved_node_id kw ov st)))).
  { unfold resolve. unfold resolved_node_id in *.
    destruct (use_config kw); now rewrite Hs, Hi. }
  now rewrite Hr.
Qed.

(** A node identifier that has the sigil but does not read as a base-16
    literal once every '!' is dropped makes assembly fail with the
    [ValueError] of [int], the state untouched; a text send with it
    publishes nothing and logs that error. *)
Theorem malformed_literal_rejected (data : Data) (kw : Kwargs)
    (ov : Overrides) (st : State) :
  kw_overrides kw = Some ov ->
  PyStr.startswith "!" (resolved_node_id kw ov st) = true ->
  PyStr.int16 (PyStr.remove_char "!" (resolved_node_id kw ov st)) = None ->
  let e := ValueError_literal
             (PyStr.remove_char "!" (resolved_node_id kw ov st)) in
  InvalidNodeId e /\
  assemble data kw st = (Raise e, st) /\
  forall message,
    send_text message kw st
    = (Ok tt, add_events (written_back kw ov st) [EvError e]).
Proof.
  intros Hov Hs Hi e. split; [exact I |].
  split; [now apply assemble_malformed |].
  intros message. apply send_text_assembly_failure; [assumption |].
  intros data'. unfold e.
  rewrite <- (resolved_node_id_written_back kw ov st).
  apply assemble_malformed; try assumption;
    now rewrite resolved_node_id_written_back.
Qed.

(** For identifiers whose characters all lie below U+0100, which are the
    strings of this development: one character that is neither white
    space, a hexadecimal digit, an underscore, a sign, [x], [X] nor '!'
    anywhere in an identifier that has the sigil is enough for assembly
    to fail on the literal.  (Beyond U+00FF, [int] also takes the decimal
    digits and white space of other scripts; such identifiers are
    outside this statement.) *)
Theorem foreign_character_rejected (data : Data) (kw : Kwargs)
    (ov : Overrides) (st : State) :
  kw_overrides kw = Some ov ->
  PyStr.startswith "!" (resolved_node_id kw ov st) = true ->
  all_chars identifier_char (resolved_node_id kw ov st) = false ->
  assemble data kw st
  = (Raise (ValueError_literal
              (PyStr.remove_char "!" (resolved_node_id kw ov st))), st).
Proof.
  intros Hov Hs Hforeign. apply assemble_malformed; try assumption.
  destruct (PyStr.int16 _) as [v |] eqn:Hi; [| reflexivity].
  apply int16_literal, remove_sigil_literal in Hi. congruence.
Qed.

End LiteralFailures.

(** ** Upper and lower case in node identifiers *)

Lemma lower_char_classes (a : ascii) :
  PyStr.is_space (PyStr.lower_char a) = PyStr.is_space a /\
  PyStr.hex_digit (PyStr.lower_char a) = PyStr.hex_digit a /\
  Ascii.eqb (PyStr.lower_char a) "_" = Ascii.eqb a "_" /\
  Ascii.eqb (PyStr.lower_char a) "!" = Ascii.eqb a "!".
Proof.
  destruct a as [[] [] [] [] [] [] [] []]; vm_compute; repeat split.
Qed.

Lemma lower_remove_sigil (s : string) :
  PyStr.remove_char "!" (PyStr.lower s)
  = PyStr.lower (PyStr.remove_char "!" s).
Proof.
  induction s as [| a s IH]; [reflexivity |].
  cbn [PyStr.lower PyStr.remove_char].
  destruct (lower_char_classes a) as (_ & _ & _ & ->).
  destruct (Ascii.eqb a "!"); [assumption |].
  cbn [PyStr.lower]. now rewrite IH.
Qed.

Lemma lower_skip_spaces (s : string) :
  PyStr.skip_spaces (PyStr.lower s) = PyStr.lower (PyStr.skip_spaces s).
Proof.
  induction s as [| a s IH]; [reflexivity |].
  cbn [PyStr.lower PyStr.skip_spaces].
  destruct (lower_char_classes a) as (-> & _).
  destruct (PyStr.is_space a); [assumption | reflexivity].
Qed.

Lemma lower_strip_sign (s : string) :
  PyStr.strip_sign (PyStr.lower s)
  = (fst (PyStr.strip_sign s), PyStr.lower (snd (PyStr.strip_sign s))).
Proof.
  destruct s as [| a s]; [reflexivity |].
  destruct a as [[] [] [] [] [] [] [] []]; reflexivity.
Qed.

Lemma lower_strip_0x (s : string) :
  PyStr.strip_0x (PyStr.lower s) = PyStr.lower (PyStr.strip_0x s).
Proof.
  destruct s as [| a [| c s]]; [reflexivity | |].
  - destruct a as [[] [] [] [] [] [] [] []]; reflexivity.
  - destruct a as [[] [] [] [] [] [] [] []]; try reflexivity;
      try (destruct c as [[] [] [] [] [] [] [] []]; reflexivity).
    destruct c as [[] [] [] [] [] [] [] []]; try reflexivity;
      destruct s as [| u s']; try reflexivity;
      destruct u as [[] [] [] [] [] [] [] []]; reflexivity.
Qed.

Lemma lower_starts_with_digit (s : string) :
  PyStr.starts_with_digit (PyStr.lower s) = PyStr.starts_with_digit s.
Proof.
  destruct s as [| a s]; [reflexivity |]. simpl.
  now destruct (lower_char_classes a) as (_ & -> & _).
Qed.

Lemma lower_all_spaces (s : string) :
  PyStr.all_spaces (PyStr.lower s) = PyStr.all_spaces s.
Proof.
  induction s as [| a s IH]; [reflexivity |]. simpl.
  destruct (lower_char_classes a) as (-> & _). now rewrite IH.
Qed.

Lemma lower_scan_digits (s : string) : forall b acc,
  PyStr.scan_digits b acc (PyStr.lower s)
  = match PyStr.scan_digits b acc s with
    | Some (v, rest) => Some (v, PyStr.lower rest)
    | None => None
    end.
Proof.
  induction s as [| a s IH]; intros b acc.
  - simpl. destruct b; reflexivity.
  - cbn [PyStr.lower PyStr.scan_digits].
    destruct (lower_char_classes a) as (_ & -> & -> & _).
    destruct (Ascii.eqb a "_").
    + destruct b; [reflexivity | apply IH].
    + destruct (PyStr.hex_digit a); [apply IH |].
      destruct b; reflexivity.
Qed.

(** [int(s.lower(), 16)] is [int(s, 16)]. *)
Lemma int16_lower (s : string) :
  PyStr.int16 (PyStr.lower s) = PyStr.int16 s.
Proof.
  unfold PyStr.int16.
  rewrite lower_skip_spaces, lower_strip_sign.
  destruct (PyStr.strip_sign (PyStr.skip_spaces s)) as [neg s1]. simpl.
  rewrite lower_strip_0x, lower_starts_with_digit.
  destruct (PyStr.starts_with_digit _); [| reflexivity].
  rewrite lower_scan_digits.
  destruct (PyStr.scan_digits false 0 _) as [[v rest] |]; [| reflexivity].
  now rewrite lower_all_spaces.
Qed.

Lemma lower_startswith_sigil (s : string) :
  PyStr.startswith "!" (PyStr.lower s) = PyStr.startswith "!" s.
Proof.
  destruct s as [| a s]; [reflexivity |].
  destruct a as [[] [] [] [] [] [] [] []]; reflexivity.
Qed.

Section GatewayId.

Variable generate_hash : string -> string -> result Z.
Variable get_message_id : Z -> Z.
Variable encrypt_packet : string -> string -> MeshPacket -> Data -> result bytes.

Local Abbreviation envelope :=
  (generate_mesh_packet_envelope generate_hash get_message_id encrypt_packet).

(** The [gateway_id] of an envelope is itself an accepted identifier of
    the sender: it has the sigil and reads, by the rule applied to the
    node identifier, as the packet's [from].  So the lower-case form of
    an identifier names the same node as the identifier. *)
Theorem gateway_id_reads_as_from (data : Data) (kw : Kwargs)
    (st st' : State) (env : ServiceEnvelope) :
  envelope data kw st = (Ok env, st') ->
  PyStr.startswith "!" (gateway_id env) = true /\
  PyStr.int16 (PyStr.remove_char "!" (gateway_id env))
    = Some (mp_from (packet env)).
Proof.
  intros H. apply envelope_inv in H.
  destruct H as (ov & r & hash & _ & Hr & _ & _ & Hg & Hbody).
  assert (Hfrom : mp_from (packet env) = r_from_id r).
  { destruct Hbody as [(_ & -> & _) | (_ & ct & _ & -> & _)]; reflexivity. }
  destruct (resolve_Ok _ _ _ _ Hr) as (_ & Hs & Hi & _ & _ & Hgw & _).
  rewrite Hg, Hgw, Hfrom. split.
  - now rewrite lower_startswith_sigil.
  - now rewrite lower_remove_sigil, int16_lower.
Qed.

End GatewayId.

(** ** Publishing: what a send leaves behind *)

Lemma add_events_nil (st : State) : add_events st [] = st.
Proof. destruct st. unfold add_events. simpl. now rewrite app_nil_r. Qed.

Section PublishRuns.

Variable generate_hash : string -> string -> result Z.
Variable get_message_id : Z -> Z.
Variable encrypt_packet : string -> string -> MeshPacket -> Data -> result bytes.
Variable SerializeToString : ServiceEnvelope -> bytes.
Variable client_publish : string -> bytes -> result unit.

Local Abbreviation envelope :=
  (generate_mesh_packet_envelope generate_hash get_message_id encrypt_packet).
Local Abbreviation assemble :=
  (generate_mesh_packet generate_hash get_message_id encrypt_packet
     SerializeToString).
Local Abbreviation publish := (publish_message client_publish).
Local Abbreviation send_text :=
  (send_text_message generate_hash get_message_id encrypt_packet
     SerializeToString client_publish).

Lemma assemble_of_envelope (data : Data) (kw : Kwargs) (st : State) :
  assemble data kw st
  = match envelope data kw st with
    | (Ok env, st') => (Ok (SerializeToString env), st')
    | (Raise e, st') => (Raise e, st')
    end.
Proof.
  unfold generate_mesh_packet, bind, ret.
  destruct (envelope data kw st) as [[env | e] st']; reflexivity.
Qed.

(** A text send whose envelope is assembled hands exactly that envelope,
    serialised, to the transport, once, under the topic it logged; the
    inner message of a cleartext body has the text port number, the
    UTF-8 bytes of the text and the caller's [want_response] (false when
    absent).  Nothing is said here of the [bitfield], which a caller may
    set by keyword. *)
Theorem text_send_publishes_envelope (message : string) (kw : Kwargs)
    (ov : Overrides) (st st1 : State) (env : ServiceEnvelope) :
  kw_overrides kw = Some ov ->
  envelope (text_data message TEXT_MESSAGE_APP kw) kw (written_back kw ov st)
    = (Ok env, st1) ->
  (exists tail,
     send_text message kw st
     = (Ok tt,
        add_events st1
          (EvTx TEXT_MESSAGE_APP (topic_of kw ov st)
             (logged_destination kw ov st)
           :: EvPublish (topic_of kw ov st) (SerializeToString env)
           :: tail)) /\
     (tail = [] \/
      exists e, tail = [EvError e] /\
        client_publish (topic_of kw ov st) (SerializeToString env)
          = Raise e)) /\
  (forall d, mp_decoded (packet env) = Some d ->
     portnum d = 1 /\ payload d = encode_utf8 message /\
     want_response d = kwargs_get (kw_want_response kw) false).
Proof.
  intros Hov Henv. split.
  - unfold send_text_message.
    rewrite (publish_message_run _ _ _ _ _ _ Hov), create_text_payload_run,
      assemble_of_envelope, Henv. simpl.
    destruct (client_publish _ _) as [[] | e] eqn:Hpub.
    + exists []. split; [reflexivity | now left].
    + exists [EvError e]. split; [now rewrite add_events_app |].
      right. exists e. auto.
  - intros d Hd. apply envelope_inv in Henv.
    destruct Henv as (ov' & r & hash & _ & _ & _ & _ & _ & Hbody).
    destruct Hbody as [(_ & Hp & _) | (_ & ct & _ & Hp & _)];
      rewrite Hp in Hd; simpl in Hd; [| discriminate].
    injection Hd as <-. simpl. auto.
Qed.

(** The destination in the log header and the destination in the packet
    are resolved in different orders: the header takes the per-call [to]
    first, the packet the override first.  They agree when there is no
    per-call [to] and the override is not 0; with both a per-call [to]
    and a non-zero override the header shows the former and the packet
    goes to the latter. *)
Theorem logged_destination_and_packet (message : string) (kw : Kwargs)
    (ov : Overrides) (st st1 : State) (env : ServiceEnvelope) :
  kw_overrides kw = Some ov ->
  envelope (text_data message TEXT_MESSAGE_APP kw) kw (written_back kw ov st)
    = (Ok env, st1) ->
  (exists tail,
     snd (send_text message kw st)
     = add_events st1
         (EvTx TEXT_MESSAGE_APP (topic_of kw ov st)
            (logged_destination kw ov st)
          :: tail)) /\
  (kw_to kw = None -> ov_destination ov <> Some 0 ->
     logged_destination kw ov st = mp_to (packet env)) /\
  (forall t d, kw_to kw = Some t -> ov_destination ov = Some d -> d <> 0 ->
     logged_destination kw ov st = t /\ mp_to (packet env) = d).
Proof.
  intros Hov Henv. split.
  - unfold send_text_message.
    rewrite (publish_message_run _ _ _ _ _ _ Hov), create_text_payload_run,
      assemble_of_envelope, Henv.
    simpl. destruct (client_publish _ _) as [[] | e]; simpl.
    + eexists. reflexivity.
    + eexists. rewrite add_events_app. reflexivity.
  - apply envelope_inv in Henv.
    destruct Henv as (ov' & r & hash & Hov' & Hr & _ & _ & _ & Hbody).
    assert (ov' = ov) by congruence. subst ov'.
    assert (Hto : mp_to (packet env) = r_destination r).
    { destruct Hbody as [(_ & -> & _) | (_ & ct & _ & -> & _)];
        reflexivity. }
    destruct (resolve_Ok _ _ _ _ Hr) as (_ & _ & _ & _ & _ & _ & Hd).
    assert (Hcd : configured_destination kw (written_back kw ov st)
                  = configured_destination kw st).
    { unfold configured_destination, written_back.
      destruct (use_config kw); reflexivity. }
    rewrite Hto, Hd, Hcd. unfold logged_destination. split.
    + intros Hnone Hnz. rewrite Hnone. simpl.
      destruct (ov_destination ov) as [[| p | p] |]; try reflexivity.
      congruence.
    + intros t d Ht Hsome Hne. rewrite Ht, Hsome. split; [reflexivity |].
      now apply or_int_nonzero.
Qed.

(** Without [use_config] the overrides are stored in the attributes of
    the [client] module instead: a non-empty [node_id] or
    [channel_preset] override replaces [client.node_id] or
    [client.channel] for the rest of the process, and the configuration
    object is left alone. *)
Theorem override_written_to_client (pf : Z -> Kwargs -> M bytes)
    (portnum : Z) (kw : Kwargs) (ov : Overrides) (st : State) :
  use_config kw = false ->
  kw_overrides kw = Some ov ->
  (forall s, st_client (snd (pf portnum kw s)) = st_client s /\
             st_config (snd (pf portnum kw s)) = st_config s) ->
  let st' := snd (publish pf portnum kw st) in
  st_config st' = st_config st /\
  (forall n, ov_node_id ov = Some n -> n <> "" ->
     client_node_id (st_client st') = n) /\
  (forall c, ov_channel_preset ov = Some c -> c <> "" ->
     client_channel (st_client st') = c) /\
  (ov_node_id ov = None -> ov_channel_preset ov = None ->
     st_client st' = st_client st).
Proof.
  intros Huse Hov Hframe st'.
  assert (Hst : st_client st' = st_client (written_back kw ov st) /\
                st_config st' = st_config (written_back kw ov st)).
  { unfold st'. rewrite (publish_message_run _ _ _ _ _ _ Hov).
    specialize (Hframe (written_back kw ov st)).
    destruct (pf portnum kw _) as [[payload | e] st1]; simpl in *;
      [| assumption].
    destruct (client_publish _ payload); simpl; assumption. }
  destruct Hst as [Hcl Hcfg]. rewrite Hcl, Hcfg.
  unfold written_back, resolved_node_id, resolved_channel_name.
  rewrite Huse. simpl. split; [reflexivity |]. split; [| split].
  - intros n Hn Hne. rewrite Hn. now apply or_str_nonempty.
  - intros c Hc Hne. rewrite Hc. now apply or_str_nonempty.
  - intros Hn Hc. rewrite Hn, Hc. simpl. now destruct (st_client st).
Qed.

End PublishRuns.

(** ** The command line *)

Lemma bind_assoc_at {A B C} (m : M A) (k : A -> M B) (k' : B -> M C)
    (st : State) :
  bind (bind m k) k' st = bind m (fun a => bind (k a) k') st.
Proof.
  unfold bind. destruct (m st) as [[a | e] st1]; reflexivity.
Qed.

Lemma bind_ext_at {A B} (m : M A) (k k' : A -> M B) (st : State) :
  (forall a s, k a s = k' a s) -> bind m k st = bind m k' st.
Proof.
  intros H. unfold bind. destruct (m st) as [[a | e] st1];
    [apply H | reflexivity].
Qed.

Lemma or_int_or_none (a : option Z) (b : Z) :
  or_int (or_none_int a) b = or_int a b.
Proof. destruct a as [[| p | p] |]; reflexivity. Qed.

Lemma or_str_or_none (a : option string) (b : string) :
  or_str (or_none_str a) b = or_str a b.
Proof. destruct a as [[| c s] |]; reflexivity. Qed.

Section CommandLine.

Variable generate_hash : string -> string -> result Z.
Variable get_message_id : Z -> Z.
Variable encrypt_packet : string -> string -> MeshPacket -> Data -> result bytes.
Variable SerializeToString : ServiceEnvelope -> bytes.
Variable client_publish : string -> bytes -> result unit.
Variable read_lines : string -> result (list string).
Variable nodeinfo_call : M unit.
Variable position_call : M unit.
Variable telemetry_call : M unit.
Variable environment_call : M unit.
Variable power_call : M unit.

Local Abbreviation envelope :=
  (generate_mesh_packet_envelope generate_hash get_message_id encrypt_packet).
Local Abbreviation send_text :=
  (send_text_message generate_hash get_message_id encrypt_packet
     SerializeToString client_publish).
Local Abbreviation send_all :=
  (send_messages generate_hash get_message_id encrypt_packet
     SerializeToString client_publish).
Local Abbreviation send_lines :=
  (send_file_lines generate_hash get_message_id encrypt_packet
     SerializeToString client_publish).
Local Abbreviation send_file :=
  (send_message_file generate_hash get_message_id encrypt_packet
     SerializeToString client_publish read_lines).
Local Abbreviation loop :=
  (handle_args_loop generate_hash get_message_id encrypt_packet
     SerializeToString client_publish read_lines nodeinfo_call
     position_call telemetry_call environment_call power_call).

(** For a send made from the command line the packet's [hop_start]
    always equals its [hop_limit]: both are the [--hop_limit] value when
    one was given and is not 0, and 3 otherwise.  No upper bound is
    applied to the value.  The destination is the [--destination] value
    unless that is absent or 0, when it is the configured default. *)
Theorem command_line_hops_and_destination (args : Args) (data : Data)
    (st st' : State) (env : ServiceEnvelope) :
  envelope data (message_kwargs (handle_args_overrides args)) st
    = (Ok env, st') ->
  mp_hop_start (packet env) = mp_hop_limit (packet env) /\
  mp_hop_limit (packet env) = or_int (args_hop_limit args) 3 /\
  mp_to (packet env)
    = or_int (args_destination args) (message_destination_id (st_config st)).
Proof.
  intros H. apply envelope_inv in H.
  destruct H as (ov & r & hash & Hov & Hr & _ & _ & _ & Hbody).
  simpl in Hov. injection Hov as <-.
  assert (Hp : mp_hop_start (packet env) = resolved_hop
                 (handle_args_overrides args) None /\
               mp_hop_limit (packet env) = resolved_hop
                 (handle_args_overrides args) None /\
               mp_to (packet env) = r_destination r).
  { destruct Hbody as [(_ & -> & _) | (_ & ct & _ & -> & _)]; simpl; auto. }
  destruct Hp as (-> & -> & ->).
  destruct (resolve_Ok _ _ _ _ Hr) as (_ & _ & _ & _ & _ & _ & ->).
  unfold resolved_hop. simpl. rewrite !or_int_or_none. auto.
Qed.

(** The sends of lines 139-141, one by one. *)
Lemma send_file_lines_run (lines : list string) (st : State) :
  send_lines lines st
  = (Ok tt,
     add_events st (repeat (EvError TypeError_subscript) (List.length lines))).
Proof.
  revert st. induction lines as [| msg rest IH]; intros st.
  - simpl. unfold ret. now rewrite add_events_nil.
  - cbn [send_file_lines]. unfold bind.
    unfold send_text_message.
    rewrite publish_message_without_overrides by reflexivity.
    rewrite IH. now rewrite add_events_app.
Qed.

(** No message taken from a [--message-file] is ever published: each of
    those sends is made without [_overrides], fails inside
    [publish_message] on the subscript of [False], and leaves one logged
    [TypeError].  So a file that opens adds one such error per non-blank
    line and changes nothing else; a file that is not found is passed
    over; any other error of the file escapes. *)
Theorem message_file_step (path : string) (st : State) :
  send_file path st
  = match read_lines path with
    | Ok f =>
        (Ok tt,
         add_events st
           (repeat (EvError TypeError_subscript) (List.length (file_lines f))))
    | Raise e =>
        if is_FileNotFoundError e then (Ok tt, st) else (Raise e, st)
    end.
Proof.
  unfold send_message_file. destruct (read_lines path) as [f | e].
  - apply send_file_lines_run.
  - destruct (is_FileNotFoundError e); reflexivity.
Qed.

Lemma token_eqb_false (tok arg : string) :
  arg <> tok -> String.eqb arg tok = false.
Proof. intros H. now apply String.eqb_neq. Qed.

(** The loop acts on exact tokens only: if none of the seven action
    tokens occurs in [argv] as written, nothing at all is done, whatever
    the parsed arguments say. *)
Theorem no_token_no_action (flags : Flags) (ov : Overrides)
    (argv messages : list string) (st : State) :
  (forall tok, In tok argv -> ~ In tok action_tokens) ->
  loop flags ov argv messages st = (Ok tt, st).
Proof.
  induction argv as [| arg rest IH]; intros Hno; [reflexivity |].
  assert (Harg : ~ In arg action_tokens) by (apply Hno; now left).
  cbn [handle_args_loop]. unfold action_tokens in Harg. simpl in Harg.
  rewrite !token_eqb_false by (intros ->; apply Harg; auto 10).
  simpl. apply IH. intros tok Hin. apply Hno. now right.
Qed.

(** Without the token [--message] in [argv] the messages play no part. *)
Lemma loop_without_message_token (flags : Flags) (ov : Overrides)
    (argv messages : list string) :
  ~ In "--message" argv ->
  forall st, loop flags ov argv messages st = loop flags ov argv [] st.
Proof.
  induction argv as [| arg rest IH]; intros Hno st; [reflexivity |].
  assert (Harg : arg <> "--message") by (intros ->; apply Hno; now left).
  assert (Hrest : ~ In "--message" rest) by (intros H; apply Hno; now right).
  cbn [handle_args_loop].
  rewrite (token_eqb_false "--message" arg Harg). simpl.
  repeat match goal with
         | |- context [if ?c then _ else _] =>
             destruct c; [apply bind_ext_at; intros _ s; now apply IH |]
         end.
  now apply IH.
Qed.

(** The messages are sent once, at the first [--message] token, in the
    order given; what comes before runs as if there were none, and
    every later [--message] token finds the list empty. *)
Theorem messages_sent_once (flags : Flags) (ov : Overrides)
    (pre post messages : list string) (st : State) :
  ~ In "--message" pre ->
  messages <> [] ->
  loop flags ov (pre ++ "--message" :: post) messages st
  = (loop flags ov pre [] ;;;
     send_all messages ov ;;;
     loop flags ov post []) st.
Proof.
  intros Hpre Hne. revert st.
  induction pre as [| arg rest IH]; intros st.
  - cbn [app handle_args_loop]. simpl String.eqb.
    destruct messages as [| m ms]; [congruence |]. simpl andb.
    cbv iota. unfold bind at 3. unfold ret. reflexivity.
  - assert (Harg : arg <> "--message") by (intros ->; apply Hpre; now left).
    assert (Hrest : ~ In "--message" rest)
      by (intros H; apply Hpre; now right).
    specialize (IH Hrest).
    cbn [app handle_args_loop].
    rewrite (token_eqb_false "--message" arg Harg). simpl andb. cbv iota.
    repeat match goal with
           | |- context [if ?c then _ else _] =>
               destruct c;
               [rewrite bind_assoc_at; apply bind_ext_at; intros _ s;
                apply IH |]
           end.
    apply IH.
Qed.

End CommandLine.

(** ** Port names *)

(** [get_portnum_name] never fails: for a number that has entries it
    gives the name of the first of them, and for a number that has none
    it gives the text [UNKNOWN_PORTNUM (n)]. *)
Theorem get_portnum_name_lookup (items : list (string * Z)) (portnum : Z) :
  (exists before after,
     items = (before ++ (get_portnum_name items portnum, portnum) :: after)%list /\
     forall name, ~ In (name, portnum) before) \/
  ((forall name, ~ In (name, portnum) items) /\
   get_portnum_name items portnum
   = "UNKNOWN_PORTNUM (" ++ PyStr.str_of_int portnum ++ ")").
Proof.
  induction items as [| [name number] rest IH]; simpl.
  - right. split; [intros name [] | reflexivity].
  - destruct (number =? portnum) eqn:E.
    + apply Z.eqb_eq in E. subst number. left. exists [], rest.
      split; [reflexivity | intros n []].
    + apply Z.eqb_neq in E.
      destruct IH as [(before & after & Heq & Hno) | [Hno Hun]].
      * left. exists ((name, number) :: before), after. split.
        -- simpl. now rewrite <- Heq.
        -- intros n [H | H]; [congruence | now apply Hno in H].
      * right. split; [| assumption].
        intros n [H | H]; [congruence | now apply Hno in H].
Qed.

(** ** Batches of text messages *)

Section Batches.

Variable generate_hash : string -> string -> result Z.
Variable get_message_id : Z -> Z.
Variable encrypt_packet : string -> string -> MeshPacket -> Data -> result bytes.
Variable SerializeToString : ServiceEnvelope -> bytes.
Variable client_publish : string -> bytes -> result unit.

Local Abbreviation envelope :=
  (generate_mesh_packet_envelope generate_hash get_message_id encrypt_packet).
Local Abbreviation send_text :=
  (send_text_message generate_hash get_message_id encrypt_packet
     SerializeToString client_publish).
Local Abbreviation send_all :=
  (send_messages generate_hash get_message_id encrypt_packet
     SerializeToString client_publish).

Lemma written_back_again (ov : Overrides) (st s1 : State) :
  st_config s1 = st_config (written_back (message_kwargs ov) ov st) ->
  st_config (written_back (message_kwargs ov) ov s1)
  = st_config (written_back (message_kwargs ov) ov st).
Proof.
  unfold written_back, resolved_node_id, resolved_channel_name. simpl.
  intros ->. simpl. now rewrite !or_str_idem.
Qed.

Lemma identity_of_config (ov : Overrides) (st s1 : State) :
  st_config s1 = st_config (written_back (message_kwargs ov) ov st) ->
  identity_of ov s1 = identity_of ov st.
Proof.
  unfold identity_of, resolved_node_id, written_back. simpl.
  intros ->. simpl. apply or_str_idem.
Qed.

(** One text send from the command line with a valid identity. *)
Lemma send_text_valid_identity (msg : string) (ov : Overrides) (st : State)
    (v : Z) :
  PyStr.startswith "!" (identity_of ov st) = true ->
  PyStr.int16 (PyStr.remove_char "!" (identity_of ov st)) = Some v ->
  ~ In v reserved_ids ->
  let st' := snd (send_text msg (message_kwargs ov) st) in
  st_message_id st' = get_message_id (st_message_id st) /\
  st_config st' = st_config (written_back (message_kwargs ov) ov st).
Proof.
  intros Hs Hi Hres. set (kw := message_kwargs ov).
  set (sw := written_back kw ov st).
  assert (Hid : resolved_node_id kw ov sw = identity_of ov st)
    by apply resolved_node_id_written_back.
  assert (Hr : resolve kw ov sw = Ok (resolved_with kw ov sw v)).
  { apply resolve_succeeds; now rewrite Hid. }
  assert (Hnot : is_reserved v = false).
  { destruct (is_reserved v) eqn:E; [| reflexivity].
    apply is_reserved_In in E. contradiction. }
  destruct (envelope_message_id generate_hash get_message_id encrypt_packet
              (text_data msg TEXT_MESSAGE_APP kw) kw ov _ sw eq_refl Hr Hnot)
    as (Hmid & Hcfg & _ & _).
  unfold send_text_message.
  rewrite (publish_message_run client_publish _ _ kw ov st eq_refl),
    create_text_payload_run, assemble_of_envelope.
  fold kw sw.
  destruct (envelope _ kw sw) as [[env | e] s1]; simpl in *.
  - destruct (client_publish _ _); simpl; split; assumption.
  - split; assumption.
Qed.

(** A batch of messages that encode as UTF-8 (as every string of this
    development does: its characters lie below U+0100), sent under a
    valid node identifier, takes exactly one message id per message,
    whether or not the individual sends get through hashing, encryption
    and the transport; the batch itself always returns normally.  (A
    message that cannot be encoded fails before assembly and is outside
    this statement.) *)
Theorem batch_takes_one_id_per_message (messages : list string)
    (ov : Overrides) (st : State) (v : Z) :
  PyStr.startswith "!" (identity_of ov st) = true ->
  PyStr.int16 (PyStr.remove_char "!" (identity_of ov st)) = Some v ->
  ~ In v reserved_ids ->
  fst (send_all messages ov st) = Ok tt /\
  st_message_id (snd (send_all messages ov st))
  = iterate get_message_id (List.length messages) (st_message_id st).
Proof.
  intros Hs Hi Hres. revert st Hs Hi.
  induction messages as [| msg rest IH]; intros st Hs Hi.
  - split; reflexivity.
  - cbn [send_messages List.length iterate]. unfold bind.
    destruct (send_text_valid_identity msg ov st v Hs Hi Hres)
      as [Hmid Hcfg].
    pose proof (publish_message_returns client_publish
                  (create_text_payload generate_hash get_message_id
                     encrypt_packet SerializeToString msg)
                  TEXT_MESSAGE_APP (message_kwargs ov) st) as Hret.
    unfold send_text_message in *.
    destruct (publish_message _ _ _ _ st) as [[[] | e] s1];
      simpl in *; [| discriminate].
    rewrite <- Hmid. apply IH.
    + now rewrite (identity_of_config ov st s1 Hcfg).
    + now rewrite (identity_of_config ov st s1 Hcfg).
Qed.

Lemma written_back_idem (kw : Kwargs) (ov : Overrides) (st : State) :
  written_back kw ov (written_back kw ov st) = written_back kw ov st.
Proof.
  unfold written_back, resolved_node_id, resolved_channel_name,
    set_config, set_client.
  destruct (use_config kw); simpl; now rewrite !or_str_idem.
Qed.

Lemma written_back_add_events (kw : Kwargs) (ov : Overrides) (st : State)
    (evs : list Event) :
  written_back kw ov (add_events st evs)
  = add_events (written_back kw ov st) evs.
Proof. unfold written_back. destruct (use_config kw); reflexivity. Qed.

Lemma send_text_without_sigil (msg : string) (ov : Overrides) (st : State) :
  PyStr.startswith "!" (identity_of ov st) = false ->
  send_text msg (message_kwargs ov) st
  = (Ok tt, add_events (written_back (message_kwargs ov) ov st)
              [EvError ValueError_sigil]).
Proof.
  intros Hs. apply send_text_assembly_failure; [reflexivity |].
  intros data. apply assemble_without_sigil with ov; [reflexivity |].
  now rewrite resolved_node_id_written_back.
Qed.

(** A batch sent under a node identifier without the sigil publishes
    nothing and takes no message id: each message leaves one logged
    error. *)
Theorem batch_without_sigil (messages : list string) (ov : Overrides)
    (st : State) :
  PyStr.startswith "!" (identity_of ov st) = false ->
  messages <> [] ->
  send_all messages ov st
  = (Ok tt,
     add_events (written_back (message_kwargs ov) ov st)
       (repeat (EvError ValueError_sigil) (List.length messages))).
Proof.
  intros Hs Hne.
  assert (Hgen : forall msgs s,
    PyStr.startswith "!" (identity_of ov s) = false ->
    written_back (message_kwargs ov) ov s = s ->
    send_all msgs ov s
    = (Ok tt, add_events s
                (repeat (EvError ValueError_sigil) (List.length msgs)))).
  { induction msgs as [| m ms IH]; intros s Hs' Hfix.
    - simpl. unfold ret. now rewrite add_events_nil.
    - cbn [send_messages]. unfold bind.
      rewrite (send_text_without_sigil m ov s Hs'), Hfix.
      rewrite IH.
      + now rewrite add_events_app.
      + exact Hs'.
      + now rewrite written_back_add_events, Hfix. }
  destruct messages as [| m ms]; [congruence |].
  cbn [send_messages]. unfold bind.
  rewrite (send_text_without_sigil m ov st Hs).
  rewrite Hgen.
  - now rewrite add_events_app.
  - unfold identity_of.
    change (resolved_node_id (message_kwargs ov) ov
              (add_events (written_back (message_kwargs ov) ov st)
                 [EvError ValueError_sigil]))
      with (resolved_node_id (message_kwargs ov) ov
              (written_back (message_kwargs ov) ov st)).
    now rewrite resolved_node_id_written_back.
  - now rewrite written_back_add_events, written_back_idem.
Qed.

End Batches.

(** ** The further properties on sample inputs *)

Lemma message_id_consumed_witness :
  st_message_id
    (snd (generate_mesh_packet_envelope Sample.generate_hash
            Sample.get_message_id Sample.failing_encrypt Sample.text
            (Sample.kwargs Sample.no_overrides) Sample.state)) = 42.
Proof.
  apply (proj1 (message_id_consumed Sample.generate_hash
                  Sample.get_message_id Sample.failing_encrypt Sample.text
                  (Sample.kwargs Sample.no_overrides) Sample.no_overrides
                  (resolved_with (Sample.kwargs Sample.no_overrides)
                     Sample.no_overrides Sample.state 2712847316)
                  Sample.state eq_refl eq_refl eq_refl)).
Defined.

Lemma assembled_packet_wellformed_witness :
  exists env st',
    generate_mesh_packet_envelope Sample.generate_hash Sample.get_message_id
      Sample.encrypt_packet Sample.text (Sample.kwargs Sample.no_overrides)
      Sample.state = (Ok env, st')
    /\ ~ In (mp_from (packet env)) reserved_ids.
Proof.
  eexists. eexists. split; [vm_compute; reflexivity |].
  apply (proj1 (assembled_packet_wellformed Sample.generate_hash
                  Sample.get_message_id Sample.encrypt_packet Sample.text
                  (Sample.kwargs Sample.no_overrides) Sample.state _ _
                  eq_refl)).
Defined.

Lemma destination_precedence_witness :
  exists env st',
    generate_mesh_packet_envelope Sample.generate_hash Sample.get_message_id
      Sample.encrypt_packet Sample.text Scenario.kwargs_to_9 Sample.state
    = (Ok env, st')
    /\ mp_to (packet env) = 7.
Proof.
  eexists. eexists. split; [vm_compute; reflexivity |].
  destruct (destination_precedence Sample.generate_hash
              Sample.get_message_id Sample.encrypt_packet Sample.text
              Scenario.kwargs_to_9 Sample.state _ _ eq_refl)
    as (ov & Hov & Hover & _).
  vm_compute in Hov. injection Hov as <-.
  apply Hover; [reflexivity | discriminate].
Defined.

Lemma oversized_source_rejected_witness :
  generate_mesh_packet_envelope Sample.generate_hash Sample.get_message_id
    Sample.encrypt_packet Sample.text
    (Sample.kwargs (Sample.overrides_node_id "!100000000")) Sample.state
  = (Raise (ValueError_range 4294967296), set_message_id Sample.state 42).
Proof.
  apply (oversized_source_rejected Sample.generate_hash
           Sample.get_message_id Sample.encrypt_packet Sample.text
           (Sample.kwargs (Sample.overrides_node_id "!100000000"))
           (Sample.overrides_node_id "!100000000") Sample.state 4294967296).
  - reflexivity.
  - reflexivity.
  - reflexivity.
  - simpl. intros [H | [H | [H | [H | [H | []]]]]]; discriminate H.
  - unfold u32. intros [_ H]. revert H. simpl. discriminate.
  - unfold u32. simpl. split; [discriminate | reflexivity].
Defined.

Lemma encryption_failure_aborts_witness :
  fst (generate_mesh_packet_envelope Sample.generate_hash
         Sample.get_message_id Sample.failing_encrypt Sample.text
         (Sample.kwargs Sample.no_overrides) Sample.state)
  = Raise (Collaborator "InvalidKey" "bad key").
Proof.
  rewrite (encryption_failure_aborts Sample.generate_hash
             Sample.get_message_id Sample.failing_encrypt Sample.text
             (Sample.kwargs Sample.no_overrides) Sample.no_overrides
             (resolved_with (Sample.kwargs Sample.no_overrides)
                Sample.no_overrides Sample.state 2712847316)
             Sample.state 8 (Collaborator "InvalidKey" "bad key")).
  - reflexivity.
  - reflexivity.
  - reflexivity.
  - unfold all_checks_pass, checks_pass, u32. simpl.
    repeat split; try reflexivity; discriminate.
  - discriminate.
  - reflexivity.
Defined.

Lemma malformed_literal_rejected_witness :
  generate_mesh_packet Sample.generate_hash Sample.get_message_id
    Sample.encrypt_packet Sample.SerializeToString Sample.text
    (Sample.kwargs (Sample.overrides_node_id "!")) Sample.state
  = (Raise (ValueError_literal ""), Sample.state).
Proof.
  apply (malformed_literal_rejected Sample.generate_hash
           Sample.get_message_id Sample.encrypt_packet
           Sample.SerializeToString Sample.client_publish Sample.text
           (Sample.kwargs (Sample.overrides_node_id "!"))
           (Sample.overrides_node_id "!") Sample.state
           eq_refl eq_refl eq_refl).
Defined.

Lemma foreign_character_rejected_witness :
  generate_mesh_packet Sample.generate_hash Sample.get_message_id
    Sample.encrypt_packet Sample.SerializeToString Sample.text
    (Sample.kwargs (Sample.overrides_node_id "!a1g2")) Sample.state
  = (Raise (ValueError_literal "a1g2"), Sample.state).
Proof.
  apply (foreign_character_rejected Sample.generate_hash
           Sample.get_message_id Sample.encrypt_packet
           Sample.SerializeToString Sample.text
           (Sample.kwargs (Sample.overrides_node_id "!a1g2"))
           (Sample.overrides_node_id "!a1g2") Sample.state
           eq_refl eq_refl eq_refl).
Defined.

Lemma gateway_id_reads_as_from_witness :
  exists env st',
    generate_mesh_packet_envelope Sample.generate_hash Sample.get_message_id
      Sample.encrypt_packet Sample.text (Sample.kwargs Sample.no_overrides)
      Sample.state = (Ok env, st')
    /\ gateway_id env = "!a1b2c3d4"
    /\ PyStr.int16 (PyStr.remove_char "!" (gateway_id env))
       = Some (mp_from (packet env)).
Proof.
  eexists. eexists. split; [vm_compute; reflexivity |].
  split; [reflexivity |].
  apply (proj2 (gateway_id_reads_as_from Sample.generate_hash
                  Sample.get_message_id Sample.encrypt_packet Sample.text
                  (Sample.kwargs Sample.no_overrides) Sample.state _ _
                  eq_refl)).
Defined.

Lemma text_send_publishes_envelope_witness :
  exists env st1,
    generate_mesh_packet_envelope Sample.generate_hash Sample.get_message_id
      Sample.encrypt_packet
      (text_data "hi" TEXT_MESSAGE_APP
         (Sample.kwargs Sample.cleartext_overrides))
      (Sample.kwargs Sample.cleartext_overrides)
      (written_back (Sample.kwargs Sample.cleartext_overrides)
         Sample.cleartext_overrides Sample.state)
    = (Ok env, st1)
    /\ forall d, mp_decoded (packet env) = Some d ->
         portnum d = 1 /\ payload d = "hi" /\ want_response d = false.
Proof.
  eexists. eexists. split; [vm_compute; reflexivity |].
  apply (proj2 (text_send_publishes_envelope Sample.generate_hash
                  Sample.get_message_id Sample.encrypt_packet
                  Sample.SerializeToString Sample.client_publish "hi"
                  (Sample.kwargs Sample.cleartext_overrides)
                  Sample.cleartext_overrides Sample.state _ _
                  eq_refl eq_refl)).
Defined.

Lemma logged_destination_and_packet_witness :
  exists env st1,
    generate_mesh_packet_envelope Sample.generate_hash Sample.get_message_id
      Sample.encrypt_packet
      (text_data "hi" TEXT_MESSAGE_APP Scenario.kwargs_to_9)
      Scenario.kwargs_to_9
      (written_back Scenario.kwargs_to_9 Scenario.overrides_destination_7
         Sample.state)
    = (Ok env, st1)
    /\ logged_destination Scenario.kwargs_to_9
         Scenario.overrides_destination_7 Sample.state = 9
    /\ mp_to (packet env) = 7.
Proof.
  eexists. eexists. split; [vm_compute; reflexivity |].
  destruct (logged_destination_and_packet Sample.generate_hash
              Sample.get_message_id Sample.encrypt_packet
              Sample.SerializeToString Sample.client_publish "hi"
              Scenario.kwargs_to_9 Scenario.overrides_destination_7
              Sample.state _ _ eq_refl eq_refl) as (_ & _ & H).
  apply (H 9 7); [reflexivity | reflexivity | discriminate].
Defined.

Lemma override_written_to_client_witness :
  client_node_id
    (st_client
       (snd (send_text_message Sample.generate_hash Sample.get_message_id
               Sample.encrypt_packet Sample.SerializeToString
               Sample.client_publish "hi"
               (Scenario.client_kwargs (Sample.overrides_node_id "!0000beef"))
               Sample.state)))
  = "!0000beef".
Proof.
  destruct (override_written_to_client Sample.client_publish
              (create_text_payload Sample.generate_hash
                 Sample.get_message_id Sample.encrypt_packet
                 Sample.SerializeToString "hi")
              TEXT_MESSAGE_APP
              (Scenario.client_kwargs (Sample.overrides_node_id "!0000beef"))
              (Sample.overrides_node_id "!0000beef") Sample.state
              eq_refl eq_refl
              (fun s =>
                 match assemble_frame Sample.generate_hash
                         Sample.get_message_id Sample.encrypt_packet
                         Sample.SerializeToString _ _ s with
                 | conj Hcfg Hcl => conj Hcl Hcfg
                 end)) as (_ & Hnode & _).
  apply Hnode; [reflexivity | discriminate].
Defined.

Lemma command_line_hops_and_destination_witness :
  exists env st',
    generate_mesh_packet_envelope Sample.generate_hash Sample.get_message_id
      Sample.encrypt_packet Sample.text
      (message_kwargs (handle_args_overrides Scenario.args_zero))
      Sample.state = (Ok env, st')
    /\ mp_hop_start (packet env) = 3 /\ mp_hop_limit (packet env) = 3
    /\ mp_to (packet env) = 4294967295.
Proof.
  eexists. eexists. split; [vm_compute; reflexivity |].
  destruct (command_line_hops_and_destination Sample.generate_hash
              Sample.get_message_id Sample.encrypt_packet Scenario.args_zero
              Sample.text Sample.state _ _ eq_refl) as (Hs & Hl & Ht).
  split; [exact (eq_trans Hs Hl) | split; [exact Hl | exact Ht]].
Defined.

Lemma no_token_no_action_witness :
  handle_args_loop Sample.generate_hash Sample.get_message_id
    Sample.encrypt_packet Sample.SerializeToString Sample.client_publish
    Scenario.read_lines Scenario.no_call Scenario.no_call Scenario.no_call
    Scenario.no_call Scenario.no_call Scenario.flags Sample.no_overrides
    ["--message=a"; "--nodei"] ["a"] Sample.state
  = (Ok tt, Sample.state).
Proof.
  apply no_token_no_action.
  intros tok [<- | [<- | []]] H; simpl in H;
    repeat (destruct H as [H | H]; [discriminate H |]); exact H.
Defined.

Lemma messages_sent_once_witness :
  handle_args_loop Sample.generate_hash Sample.get_message_id
    Sample.encrypt_packet Sample.SerializeToString Sample.client_publish
    Scenario.read_lines Scenario.no_call Scenario.no_call Scenario.no_call
    Scenario.no_call Scenario.no_call Scenario.flags
    Sample.cleartext_overrides ["--nodeinfo"; "--message"; "--message"]
    ["a"; "b"] Sample.state
  = send_messages Sample.generate_hash Sample.get_message_id
      Sample.encrypt_packet Sample.SerializeToString Sample.client_publish
      ["a"; "b"] Sample.cleartext_overrides Sample.state.
Proof.
  etransitivity.
  - apply (messages_sent_once Sample.generate_hash Sample.get_message_id
             Sample.encrypt_packet Sample.SerializeToString
             Sample.client_publish Scenario.read_lines Scenario.no_call
             Scenario.no_call Scenario.no_call Scenario.no_call
             Scenario.no_call Scenario.flags Sample.cleartext_overrides
             ["--nodeinfo"] ["--message"] ["a"; "b"] Sample.state).
    + simpl. intros [H | []]. discriminate H.
    + discriminate.
  - vm_compute. reflexivity.
Defined.

Lemma batch_takes_one_id_per_message_witness :
  st_message_id
    (snd (send_messages Sample.generate_hash Sample.get_message_id
            Sample.failing_encrypt Sample.SerializeToString
            Sample.client_publish ["a"; "b"; "c"] Sample.no_overrides
            Sample.state)) = 44.
Proof.
  refine (proj2 (batch_takes_one_id_per_message Sample.generate_hash
                   Sample.get_message_id Sample.failing_encrypt
                   Sample.SerializeToString Sample.client_publish
                   ["a"; "b"; "c"] Sample.no_overrides Sample.state
                   2712847316 eq_refl eq_refl _)).
  simpl. intros [H | [H | [H | [H | [H | []]]]]]; discriminate H.
Defined.

Lemma batch_without_sigil_witness :
  st_events
    (snd (send_messages Sample.generate_hash Sample.get_message_id
            Sample.encrypt_packet Sample.SerializeToString
            Sample.client_publish ["a"; "b"]
            (Sample.overrides_node_id "a1b2c3d4") Sample.state))
  = [EvError ValueError_sigil; EvError ValueError_sigil].
Proof.
  rewrite (batch_without_sigil Sample.generate_hash Sample.get_message_id
             Sample.encrypt_packet Sample.SerializeToString
             Sample.client_publish ["a"; "b"]
             (Sample.overrides_node_id "a1b2c3d4") Sample.state).
  - reflexivity.
  - reflexivity.
  - discriminate.
Defined.
